(** * pkg/connection/connection.go: the CSI connection of the external snapshotter

    A shallow embedding of the gRPC facade [csiConnection] and of the helpers
    it is built from ([connect], [logGRPC], [timestampToUnixTime]), followed by
    the properties the specification states about them.

    Go values are modelled as the code has them: [int64] and [int32] as [Z]
    with the wrap-around written out, pointers that may be nil as [option],
    [map[string]string] as [gmap string string], multiple return values as
    tuples whose last component is the [error] ([None] is [nil]).  Effects
    (glog output, remote calls, the clock and the connectivity state of the
    channel) are threaded through an explicit [World]. *)

From Stdlib Require Import ZArith Ascii String List Bool Lia.
From stdpp Require Import base option list strings gmap.

Local Open Scope string_scope.
Local Open Scope list_scope.
Local Open Scope Z_scope.

(** ** Go machine integers *)

Definition int64_min : Z := - 2 ^ 63.
Definition int64_max : Z := 2 ^ 63 - 1.

Definition is_int64 (z : Z) : Prop := int64_min <= z <= int64_max.

(** Two's complement reduction of a mathematical integer to [int64]. *)
Definition wrap64 (z : Z) : Z := (z + 2 ^ 63) mod 2 ^ 64 - 2 ^ 63.

Definition add64 (a b : Z) : Z := wrap64 (a + b).
Definition sub64 (a b : Z) : Z := wrap64 (a - b).
Definition mul64 (a b : Z) : Z := wrap64 (a * b).
(** Go's [/] truncates toward zero. *)
Definition div64 (a b : Z) : Z := wrap64 (Z.quot a b).

(** ** github.com/golang/protobuf/ptypes/timestamp *)

Module timestamp.

(** [Seconds] is an [int64], [Nanos] an [int32]. *)
Record Timestamp := mkTimestamp {
  Seconds : Z;
  Nanos : Z;
}.

End timestamp.

(** ** google.golang.org/grpc/connectivity *)

Module connectivity.

Inductive State := Idle | Connecting | Ready | TransientFailure | Shutdown.

Definition State_eqb (a b : State) : bool :=
  match a, b with
  | Idle, Idle | Connecting, Connecting | Ready, Ready
  | TransientFailure, TransientFailure | Shutdown, Shutdown => true
  | _, _ => false
  end.

End connectivity.

(** ** k8s.io/api/core/v1 (the part of PersistentVolume the connection reads) *)

Module v1.

Record CSIPersistentVolumeSource := mkCSIPersistentVolumeSource {
  Driver : string;
  VolumeHandle : string;
  ReadOnly : bool;
  FSType : string;
  VolumeAttributes : gmap string string;
}.

(** [PersistentVolumeSpec.CSI] is a pointer: [None] is nil. *)
Record PersistentVolumeSpec := mkPersistentVolumeSpec {
  CSI : option CSIPersistentVolumeSource;
}.

Record PersistentVolume := mkPersistentVolume {
  Name : string;
  Spec : PersistentVolumeSpec;
}.

End v1.

(** ** github.com/container-storage-interface/spec/lib/go/csi *)

Module csi.

Record GetPluginInfoRequest := mkGetPluginInfoRequest { }.

Record GetPluginInfoResponse := mkGetPluginInfoResponse {
  PluginInfo_Name : string;
  PluginInfo_VendorVersion : string;
  PluginInfo_Manifest : gmap string string;
}.

Record ProbeRequest := mkProbeRequest { }.

(** [Ready] is a [*wrappers.BoolValue]. *)
Record ProbeResponse := mkProbeResponse {
  Probe_Ready : option bool;
}.

Record ControllerGetCapabilitiesRequest := mkControllerGetCapabilitiesRequest { }.

(** [ControllerServiceCapability_RPC_Type] is an [int32] enum. *)
Definition ControllerServiceCapability_RPC_Type := Z.
Definition ControllerServiceCapability_RPC_UNKNOWN : ControllerServiceCapability_RPC_Type := 0.
Definition ControllerServiceCapability_RPC_CREATE_DELETE_VOLUME : ControllerServiceCapability_RPC_Type := 1.
Definition ControllerServiceCapability_RPC_PUBLISH_UNPUBLISH_VOLUME : ControllerServiceCapability_RPC_Type := 2.
Definition ControllerServiceCapability_RPC_LIST_VOLUMES : ControllerServiceCapability_RPC_Type := 3.
Definition ControllerServiceCapability_RPC_GET_CAPACITY : ControllerServiceCapability_RPC_Type := 4.
Definition ControllerServiceCapability_RPC_CREATE_DELETE_SNAPSHOT : ControllerServiceCapability_RPC_Type := 5.
Definition ControllerServiceCapability_RPC_LIST_SNAPSHOTS : ControllerServiceCapability_RPC_Type := 6.

Record ControllerServiceCapability_RPC := mkControllerServiceCapability_RPC {
  RPC_Type : ControllerServiceCapability_RPC_Type;
}.

(** The oneof [Type] of a capability: its only member wraps a pointer to
    the RPC message. *)
Inductive isControllerServiceCapability_Type :=
| ControllerServiceCapability_Rpc (Rpc : option ControllerServiceCapability_RPC).

Record ControllerServiceCapability := mkControllerServiceCapability {
  Capability_Type : option isControllerServiceCapability_Type;
}.

Record ControllerGetCapabilitiesResponse := mkControllerGetCapabilitiesResponse {
  Capabilities : list (option ControllerServiceCapability);
}.

Record Snapshot := mkSnapshot {
  Snapshot_SizeBytes : Z;
  Snapshot_SnapshotId : string;
  Snapshot_SourceVolumeId : string;
  Snapshot_CreationTime : option timestamp.Timestamp;
  Snapshot_ReadyToUse : bool;
}.

Record CreateSnapshotRequest := mkCreateSnapshotRequest {
  CreateSnapshot_SourceVolumeId : string;
  CreateSnapshot_Name : string;
  CreateSnapshot_Secrets : gmap string string;
  CreateSnapshot_Parameters : gmap string string;
}.

Record CreateSnapshotResponse := mkCreateSnapshotResponse {
  CreateSnapshot_Snapshot : option Snapshot;
}.

Record DeleteSnapshotRequest := mkDeleteSnapshotRequest {
  DeleteSnapshot_SnapshotId : string;
  DeleteSnapshot_Secrets : gmap string string;
}.

Record DeleteSnapshotResponse := mkDeleteSnapshotResponse { }.

Record ListSnapshotsRequest := mkListSnapshotsRequest {
  ListSnapshots_MaxEntries : Z;
  ListSnapshots_StartingToken : string;
  ListSnapshots_SourceVolumeId : string;
  ListSnapshots_SnapshotId : string;
}.

Record ListSnapshotsResponse_Entry := mkListSnapshotsResponse_Entry {
  Entry_Snapshot : option Snapshot;
}.

Record ListSnapshotsResponse := mkListSnapshotsResponse {
  Entries : list (option ListSnapshotsResponse_Entry);
  NextToken : string;
}.

(** Generated getters are nil-safe: on a nil receiver they return the zero
    value of the field. *)
Definition GetName (m : option GetPluginInfoResponse) : string :=
  match m with
  | Some m => PluginInfo_Name m
  | None => ""
  end.

Definition GetCapabilities (m : option ControllerGetCapabilitiesResponse)
  : list (option ControllerServiceCapability) :=
  match m with
  | Some m => Capabilities m
  | None => []
  end.

Definition GetType (m : option ControllerServiceCapability)
  : option isControllerServiceCapability_Type :=
  match m with
  | Some m => Capability_Type m
  | None => None
  end.

Definition GetRpc (m : option ControllerServiceCapability)
  : option ControllerServiceCapability_RPC :=
  match GetType m with
  | Some (ControllerServiceCapability_Rpc x) => x
  | None => None
  end.

Definition RPC_GetType (m : option ControllerServiceCapability_RPC)
  : ControllerServiceCapability_RPC_Type :=
  match m with
  | Some m => RPC_Type m
  | None => ControllerServiceCapability_RPC_UNKNOWN
  end.

(** What travels as [interface{}] through the interceptor chain: a pointer
    to one of the messages above. *)
Inductive Message :=
| MGetPluginInfoRequest (m : GetPluginInfoRequest)
| MGetPluginInfoResponse (m : GetPluginInfoResponse)
| MProbeRequest (m : ProbeRequest)
| MProbeResponse (m : ProbeResponse)
| MControllerGetCapabilitiesRequest (m : ControllerGetCapabilitiesRequest)
| MControllerGetCapabilitiesResponse (m : ControllerGetCapabilitiesResponse)
| MCreateSnapshotRequest (m : CreateSnapshotRequest)
| MCreateSnapshotResponse (m : CreateSnapshotResponse)
| MDeleteSnapshotRequest (m : DeleteSnapshotRequest)
| MDeleteSnapshotResponse (m : DeleteSnapshotResponse)
| MListSnapshotsRequest (m : ListSnapshotsRequest)
| MListSnapshotsResponse (m : ListSnapshotsResponse).

(** [new(T)]: the zero value of each response type. *)
Definition new_GetPluginInfoResponse : GetPluginInfoResponse :=
  mkGetPluginInfoResponse "" "" ∅.
Definition new_ProbeResponse : ProbeResponse := mkProbeResponse None.
Definition new_ControllerGetCapabilitiesResponse : ControllerGetCapabilitiesResponse :=
  mkControllerGetCapabilitiesResponse [].
Definition new_CreateSnapshotResponse : CreateSnapshotResponse :=
  mkCreateSnapshotResponse None.
Definition new_DeleteSnapshotResponse : DeleteSnapshotResponse :=
  mkDeleteSnapshotResponse.
Definition new_ListSnapshotsResponse : ListSnapshotsResponse :=
  mkListSnapshotsResponse [] "".

End csi.

(** ** Errors, fmt arguments and glog *)

(** A Go [error] is kept unrendered: the constructor that made it, with its
    format string and arguments.  The nil error is [None : option error]. *)
Inductive error :=
| fmt_Errorf (format : string) (args : list fmt_arg)
| errors_New (msg : string)
| status_Error (code : Z) (msg : string)
with fmt_arg :=
| arg_string (s : string)
| arg_int (z : Z)
| arg_bool (b : bool)
| arg_timestamp (t : option timestamp.Timestamp)
| arg_state (s : connectivity.State)
| arg_stripped (m : csi.Message)
| arg_error (e : option error).

(** [protosanitizer.StripSecrets(msg)] wraps the message in a value whose
    [String] method renders it with the secret fields replaced; the wrapper
    holds the message and does not touch it. *)
Definition StripSecrets (msg : csi.Message) : fmt_arg := arg_stripped msg.

(** Go's [strings.HasPrefix(s, prefix)]. *)
Definition HasPrefix (s prefix : string) : bool := String.prefix prefix s.

Module context.

(** A context carries at most a deadline (on the clock of the world). *)
Record Context := mkContext {
  deadline : option Z;
}.

Definition Background : Context := mkContext None.

(** [ctx] is done at time [t]. *)
Definition expired (ctx : Context) (t : Z) : bool :=
  match deadline ctx with
  | Some d => d <=? t
  | None => false
  end.

End context.

Module glog.

(** One emitted line: the verbosity it was logged at, the format and its
    arguments. *)
Record line := mkLine {
  level : Z;
  format : string;
  args : list fmt_arg;
}.

End glog.

(** ** The world a connection runs in *)

(** A remote call as it reaches the transport. *)
Record Call := mkCall {
  call_method : string;
  call_req : csi.Message;
}.

(** The CSI driver at the other end of the channel.  Each handler sees the
    context, the calls that reached the driver before this one and the
    request; it answers with the decoded response and the error of the call.
    Nothing is assumed of the answers: a driver may fail, answer with empty
    or missing fields, or change its answers from call to call. *)
Record Driver := mkDriver {
  drv_GetPluginInfo :
    context.Context -> list Call -> csi.GetPluginInfoRequest ->
    csi.GetPluginInfoResponse * option error;
  drv_Probe :
    context.Context -> list Call -> csi.ProbeRequest ->
    csi.ProbeResponse * option error;
  drv_ControllerGetCapabilities :
    context.Context -> list Call -> csi.ControllerGetCapabilitiesRequest ->
    csi.ControllerGetCapabilitiesResponse * option error;
  drv_CreateSnapshot :
    context.Context -> list Call -> csi.CreateSnapshotRequest ->
    csi.CreateSnapshotResponse * option error;
  drv_DeleteSnapshot :
    context.Context -> list Call -> csi.DeleteSnapshotRequest ->
    csi.DeleteSnapshotResponse * option error;
  drv_ListSnapshots :
    context.Context -> list Call -> csi.ListSnapshotsRequest ->
    csi.ListSnapshotsResponse * option error;
}.

Record World := mkWorld {
  (** glog: the [-v] level and the lines written so far, oldest first *)
  glog_v : Z;
  glog_out : list glog.line;
  (** the clock, in nanoseconds, and the time one look at the state of the
      channel takes *)
  now : Z;
  tick : Z;
  (** what [grpc.Dial] answers *)
  dial_err : option error;
  (** the connectivity state of the channel as last looked at, and the state
      changes not yet looked at, each with the time it happens at: the
      channel connects in the background and changes state at these times
      whether or not the program is looking *)
  chan_state : connectivity.State;
  chan_events : list (Z * connectivity.State);
  (** the driver and the calls that reached it, oldest first *)
  remote : Driver;
  wire : list Call;
}.

Definition set_glog_out (f : list glog.line -> list glog.line) (w : World) : World :=
  mkWorld (glog_v w) (f (glog_out w)) (now w) (tick w) (dial_err w) (chan_state w)
          (chan_events w) (remote w) (wire w).

Definition set_wire (f : list Call -> list Call) (w : World) : World :=
  mkWorld (glog_v w) (glog_out w) (now w) (tick w) (dial_err w) (chan_state w)
          (chan_events w) (remote w) (f (wire w)).

Definition set_chan (t : Z) (s : connectivity.State)
    (evs : list (Z * connectivity.State)) (w : World) : World :=
  mkWorld (glog_v w) (glog_out w) t (tick w) (dial_err w) s evs (remote w) (wire w).

(** ** Computations *)

(** How a Go call ends: it returns its results, it panics, or it never
    returns. *)
Inductive Outcome (A : Type) :=
| Returned (a : A)
| Panicked (reason : string)
| Hung.
Arguments Returned {A} a.
Arguments Panicked {A} reason.
Arguments Hung {A}.

Definition M (A : Type) : Type := World -> Outcome A * World.

#[global] Instance M_ret : MRet M := λ A a w, (Returned a, w).

#[global] Instance M_bind : MBind M := λ A B f c w,
  match c w with
  | (Returned a, w') => f a w'
  | (Panicked r, w') => (Panicked r, w')
  | (Hung, w') => (Hung, w')
  end.

Definition panic {A : Type} (reason : string) : M A := λ w, (Panicked reason, w).
Definition hang {A : Type} : M A := λ w, (Hung, w).
Definition gets {A : Type} (f : World -> A) : M A := λ w, (Returned (f w), w).
Definition modify (f : World -> World) : M unit := λ w, (Returned tt, f w).

(** Go's message for a nil dereference. *)
Definition nil_dereference : string :=
  "runtime error: invalid memory address or nil pointer dereference".

(** [*p] and [p.f] on a pointer that may be nil. *)
Definition deref {A : Type} (p : option A) : M A :=
  match p with
  | Some a => mret a
  | None => panic nil_dereference
  end.

(** [glog.V(n).Infof(format, args...)]: written when the verbosity is at
    least [n]. *)
Definition glog_V_Infof (n : Z) (format : string) (args : list fmt_arg) : M unit :=
  modify (λ w,
    if n <=? glog_v w
    then set_glog_out (λ out, out ++ [glog.mkLine n format args]) w
    else w).

(** ** time *)

Module time.

Inductive Location := Local | UTC_Location.

(** The wall field holds the nanoseconds and the ext field the seconds
    since January 1, year 1, for a time without a monotonic reading (the
    only kind made here). *)
Record Time := mkTime {
  wall : Z;
  ext : Z;
  loc : Location;
}.

Definition Nanosecond : Z := 1.
Definition Second : Z := 1000000000.

Definition unixToInternal : Z :=
  (1969 * 365 + 1969 / 4 - 1969 / 100 + 1969 / 400) * 86400.
Definition internalToUnix : Z := - unixToInternal.

Definition nsecMask : Z := Z.shiftl 1 30 - 1.

Definition unixTime (sec nsec : Z) : Time :=
  mkTime nsec (add64 sec unixToInternal) Local.

(** [time.Unix(sec, nsec)] *)
Definition Unix (sec nsec : Z) : Time :=
  if (nsec <? 0) || (nsec >=? 1000000000) then
    let n := div64 nsec 1000000000 in
    let sec := add64 sec n in
    let nsec := sub64 nsec (mul64 n 1000000000) in
    if nsec <? 0
    then unixTime (sub64 sec 1) (add64 nsec 1000000000)
    else unixTime sec nsec
  else unixTime sec nsec.

Definition UTC (t : Time) : Time := mkTime (wall t) (ext t) UTC_Location.

Definition sec (t : Time) : Z := ext t.
Definition nsec (t : Time) : Z := Z.land (wall t) nsecMask.

(** The methods [t.Unix()], [t.Nanosecond()] and [t.UnixNano()]. *)
Definition Time_Unix (t : Time) : Z := add64 (sec t) internalToUnix.
Definition Time_Nanosecond (t : Time) : Z := nsec t.
Definition UnixNano (t : Time) : Z :=
  add64 (mul64 (add64 (sec t) internalToUnix) 1000000000) (nsec t).

End time.

(** ** github.com/golang/protobuf/ptypes *)

Module ptypes.

(** [time.Date(1, 1, 1, 0, 0, 0, 0, time.UTC).Unix()] and
    [time.Date(10000, 1, 1, 0, 0, 0, 0, time.UTC).Unix()] *)
Definition minValidSeconds : Z := -62135596800.
Definition maxValidSeconds : Z := 253402300800.

Definition validateTimestamp (ts : option timestamp.Timestamp) : option error :=
  match ts with
  | None => Some (errors_New "timestamp: nil Timestamp")
  | Some t =>
      if timestamp.Seconds t <? minValidSeconds then
        Some (fmt_Errorf "timestamp: %v before 0001-01-01" [arg_timestamp ts])
      else if timestamp.Seconds t >=? maxValidSeconds then
        Some (fmt_Errorf "timestamp: %v after 10000-01-01" [arg_timestamp ts])
      else if (timestamp.Nanos t <? 0) || (timestamp.Nanos t >=? 1000000000) then
        Some (fmt_Errorf "timestamp: %v: nanos not in range [0, 1e9)" [arg_timestamp ts])
      else None
  end.

(** [ptypes.Timestamp(ts)]: the time is computed whatever the validation
    says, and returned together with the validation error. *)
Definition Timestamp (ts : option timestamp.Timestamp) : time.Time * option error :=
  let t :=
    match ts with
    | None => time.UTC (time.Unix 0 0)
    | Some x => time.UTC (time.Unix (timestamp.Seconds x) (timestamp.Nanos x))
    end in
  (t, validateTimestamp ts).

(** [ptypes.TimestampProto(t)], the encoder. *)
Definition TimestampProto (t : time.Time) : option timestamp.Timestamp * option error :=
  let ts := timestamp.mkTimestamp (time.Time_Unix t) (time.Time_Nanosecond t) in
  match validateTimestamp (Some ts) with
  | Some err => (None, Some err)
  | None => (Some ts, None)
  end.

End ptypes.

(** [context.WithTimeout(parent, timeout)]: the deadline is
    [time.Now().Add(timeout)], unless the parent's is earlier.  A [Time]
    counts seconds in an [int64] beside its nanoseconds, so the sum of now
    and an [int64] duration does not wrap.  (The cancel function only
    releases resources and is left out.) *)
Definition context_WithTimeout (parent : context.Context) (timeout : Z)
  : M context.Context :=
  t ← gets now;
  let d := t + timeout in
  mret (context.mkContext
          (Some match context.deadline parent with
                | Some p => Z.min p d
                | None => d
                end)).

(** ** google.golang.org/grpc *)

Module grpc.

(** The call a dialer makes: [net.DialTimeout(network, address, timeout)]. *)
Record DialTimeout := mkDialTimeout {
  network : string;
  address : string;
  timeout : Z;
}.

(** A custom dialer, [func(addr string, timeout time.Duration) (net.Conn, error)],
    given by the dial it performs. *)
Definition Dialer : Type := string -> Z -> DialTimeout.

(** The interceptors a channel can be given, by name (their code follows
    the channel in this file). *)
Inductive UnaryClientInterceptor := interceptor_logGRPC.

Inductive DialOption :=
| WithInsecure
| WithBackoffMaxDelay (md : Z)
| WithUnaryInterceptor (f : UnaryClientInterceptor)
| WithDialer (f : Dialer).

Inductive CallOption := FailFast (failFast : bool).

(** The settings the dial options write.  No dialer means gRPC's default
    dialer. *)
Record dialOptions := mkDialOptions {
  insecure : bool;
  backoffMaxDelay : option Z;
  unaryInt : option UnaryClientInterceptor;
  dialer : option Dialer;
}.

Definition defaultDialOptions : dialOptions := mkDialOptions false None None None.

Definition apply (o : dialOptions) (opt : DialOption) : dialOptions :=
  match opt with
  | WithInsecure =>
      mkDialOptions true (backoffMaxDelay o) (unaryInt o) (dialer o)
  | WithBackoffMaxDelay md =>
      mkDialOptions (insecure o) (Some md) (unaryInt o) (dialer o)
  | WithUnaryInterceptor f =>
      mkDialOptions (insecure o) (backoffMaxDelay o) (Some f) (dialer o)
  | WithDialer f =>
      mkDialOptions (insecure o) (backoffMaxDelay o) (unaryInt o) (Some f)
  end.

Record ClientConn := mkClientConn {
  target : string;
  dopts : dialOptions;
}.

(** [grpc.Dial(target, opts...)] without [WithBlock]: the channel is made
    and connects in the background; the world says whether the dial is
    refused. *)
Definition Dial (target : string) (opts : list DialOption)
  : M (option ClientConn * option error) :=
  err ← gets dial_err;
  match err with
  | Some e => mret (None, Some e)
  | None => mret (Some (mkClientConn target (fold_left apply opts defaultDialOptions)), None)
  end.

(** The state changes that have happened by the time [t], applied in
    order to the state [s]. *)
Fixpoint catch_up (t : Z) (s : connectivity.State) (evs : list (Z * connectivity.State))
  : connectivity.State * list (Z * connectivity.State) :=
  match evs with
  | [] => (s, [])
  | (t0, s0) :: rest => if t0 <=? t then catch_up t s0 rest else (s, evs)
  end.

(** One look at the state of the channel: it takes [tick], and sees every
    state change that has happened by then. *)
Definition observe (w : World) : World :=
  let t := now w + tick w in
  let '(s, evs) := catch_up t (chan_state w) (chan_events w) in
  set_chan t s evs w.

(** [cc.GetState()] *)
Definition GetState (cc : ClientConn) : M connectivity.State := λ w,
  (Returned (chan_state (observe w)), observe w).

(** The first pending event before the deadline that changes the state
    away from [src]; an event that sets the state the channel is already
    in notifies nobody. *)
Fixpoint next_change (ctx : context.Context) (src : connectivity.State)
    (evs : list (Z * connectivity.State))
  : option (Z * connectivity.State * list (Z * connectivity.State)) :=
  match evs with
  | [] => None
  | (t, s) :: rest =>
      if context.expired ctx t then None
      else if connectivity.State_eqb s src then next_change ctx src rest
      else Some (t, s, rest)
  end.

(** [cc.WaitForStateChange(ctx, sourceState)]: it looks at the state, and
    returns true at once when the state is not [sourceState]; otherwise it
    blocks until the state changes (true) or [ctx] expires (false). *)
Definition WaitForStateChange (cc : ClientConn) (ctx : context.Context)
    (sourceState : connectivity.State) : M bool := λ w0,
  let w := observe w0 in
  if negb (connectivity.State_eqb (chan_state w) sourceState)
  then (Returned true, w)
  else
    match next_change ctx sourceState (chan_events w) with
    | Some (t, s, rest) => (Returned true, set_chan (Z.max (now w) t) s rest w)
    | None =>
        match context.deadline ctx with
        | Some d =>
            (Returned false, set_chan (Z.max (now w) d) (chan_state w) (chan_events w) w)
        | None => (Hung, w)
        end
    end.

Definition UnaryInvoker : Type :=
  context.Context -> string -> csi.Message -> csi.Message -> ClientConn ->
  list CallOption -> M (csi.Message * option error).

Definition Unimplemented : Z := 12.

(** Answer of the driver [d] to a request sent as [method], after the calls
    [hist]: the content of the reply and the error. *)
Definition serve (d : Driver) (ctx : context.Context) (hist : list Call)
    (method : string) (req reply : csi.Message) : csi.Message * option error :=
  let unimplemented := (reply, Some (status_Error Unimplemented "unknown method")) in
  match req with
  | csi.MGetPluginInfoRequest r =>
      if String.eqb method "/csi.v1.Identity/GetPluginInfo"
      then let '(rsp, err) := drv_GetPluginInfo d ctx hist r in
           (csi.MGetPluginInfoResponse rsp, err)
      else unimplemented
  | csi.MProbeRequest r =>
      if String.eqb method "/csi.v1.Identity/Probe"
      then let '(rsp, err) := drv_Probe d ctx hist r in
           (csi.MProbeResponse rsp, err)
      else unimplemented
  | csi.MControllerGetCapabilitiesRequest r =>
      if String.eqb method "/csi.v1.Controller/ControllerGetCapabilities"
      then let '(rsp, err) := drv_ControllerGetCapabilities d ctx hist r in
           (csi.MControllerGetCapabilitiesResponse rsp, err)
      else unimplemented
  | csi.MCreateSnapshotRequest r =>
      if String.eqb method "/csi.v1.Controller/CreateSnapshot"
      then let '(rsp, err) := drv_CreateSnapshot d ctx hist r in
           (csi.MCreateSnapshotResponse rsp, err)
      else unimplemented
  | csi.MDeleteSnapshotRequest r =>
      if String.eqb method "/csi.v1.Controller/DeleteSnapshot"
      then let '(rsp, err) := drv_DeleteSnapshot d ctx hist r in
           (csi.MDeleteSnapshotResponse rsp, err)
      else unimplemented
  | csi.MListSnapshotsRequest r =>
      if String.eqb method "/csi.v1.Controller/ListSnapshots"
      then let '(rsp, err) := drv_ListSnapshots d ctx hist r in
           (csi.MListSnapshotsResponse rsp, err)
      else unimplemented
  | _ => unimplemented
  end.

(** The transport, [invoke]: the call goes on the wire and the driver's
    answer is decoded into [reply]. *)
Definition invoke : UnaryInvoker := λ ctx method req reply cc opts w,
  (Returned (serve (remote w) ctx (wire w) method req reply),
   set_wire (λ l, l ++ [mkCall method req]) w).

End grpc.

(** ** pkg/connection: the interceptor *)

Definition logGRPC (ctx : context.Context) (method : string) (req reply : csi.Message)
    (cc : grpc.ClientConn) (invoker : grpc.UnaryInvoker) (opts : list grpc.CallOption)
  : M (csi.Message * option error) :=
  glog_V_Infof 5 "GRPC call: %s" [arg_string method];;
  glog_V_Infof 5 "GRPC request: %s" [StripSecrets req];;
  '(reply, err) ← invoker ctx method req reply cc opts;
  glog_V_Infof 5 "GRPC response: %s" [StripSecrets reply];;
  glog_V_Infof 5 "GRPC error: %v" [arg_error err];;
  mret (reply, err).

(** [cc.Invoke]: through the unary interceptor of the channel when it has
    one, to the transport otherwise. *)
Definition ClientConn_Invoke (cc : grpc.ClientConn) (ctx : context.Context)
    (method : string) (args reply : csi.Message) (opts : list grpc.CallOption)
  : M (csi.Message * option error) :=
  match grpc.unaryInt (grpc.dopts cc) with
  | Some grpc.interceptor_logGRPC => logGRPC ctx method args reply cc grpc.invoke opts
  | None => grpc.invoke ctx method args reply cc opts
  end.

(** ** The generated CSI clients *)

Record identityClient := mkIdentityClient { identity_cc : grpc.ClientConn }.
Record controllerClient := mkControllerClient { controller_cc : grpc.ClientConn }.

Definition NewIdentityClient (cc : grpc.ClientConn) : identityClient := mkIdentityClient cc.
Definition NewControllerClient (cc : grpc.ClientConn) : controllerClient := mkControllerClient cc.

(** Each stub allocates the response, invokes the method on the channel and
    returns the response, or nil and the error. *)
Definition identityClient_GetPluginInfo (c : identityClient) (ctx : context.Context)
    (in_ : csi.GetPluginInfoRequest)
  : M (option csi.GetPluginInfoResponse * option error) :=
  let out := csi.new_GetPluginInfoResponse in
  '(reply, err) ← ClientConn_Invoke (identity_cc c) ctx "/csi.v1.Identity/GetPluginInfo"
                     (csi.MGetPluginInfoRequest in_) (csi.MGetPluginInfoResponse out) [];
  match err with
  | Some e => mret (None, Some e)
  | None =>
      mret (Some match reply with csi.MGetPluginInfoResponse r => r | _ => out end, None)
  end.

Definition identityClient_Probe (c : identityClient) (ctx : context.Context)
    (in_ : csi.ProbeRequest)
  : M (option csi.ProbeResponse * option error) :=
  let out := csi.new_ProbeResponse in
  '(reply, err) ← ClientConn_Invoke (identity_cc c) ctx "/csi.v1.Identity/Probe"
                     (csi.MProbeRequest in_) (csi.MProbeResponse out) [];
  match err with
  | Some e => mret (None, Some e)
  | None =>
      mret (Some match reply with csi.MProbeResponse r => r | _ => out end, None)
  end.

Definition controllerClient_ControllerGetCapabilities (c : controllerClient)
    (ctx : context.Context) (in_ : csi.ControllerGetCapabilitiesRequest)
  : M (option csi.ControllerGetCapabilitiesResponse * option error) :=
  let out := csi.new_ControllerGetCapabilitiesResponse in
  '(reply, err) ← ClientConn_Invoke (controller_cc c) ctx
                     "/csi.v1.Controller/ControllerGetCapabilities"
                     (csi.MControllerGetCapabilitiesRequest in_)
                     (csi.MControllerGetCapabilitiesResponse out) [];
  match err with
  | Some e => mret (None, Some e)
  | None =>
      mret (Some match reply with
                 | csi.MControllerGetCapabilitiesResponse r => r
                 | _ => out
                 end, None)
  end.

Definition controllerClient_CreateSnapshot (c : controllerClient) (ctx : context.Context)
    (in_ : csi.CreateSnapshotRequest)
  : M (option csi.CreateSnapshotResponse * option error) :=
  let out := csi.new_CreateSnapshotResponse in
  '(reply, err) ← ClientConn_Invoke (controller_cc c) ctx "/csi.v1.Controller/CreateSnapshot"
                     (csi.MCreateSnapshotRequest in_) (csi.MCreateSnapshotResponse out) [];
  match err with
  | Some e => mret (None, Some e)
  | None =>
      mret (Some match reply with csi.MCreateSnapshotResponse r => r | _ => out end, None)
  end.

Definition controllerClient_DeleteSnapshot (c : controllerClient) (ctx : context.Context)
    (in_ : csi.DeleteSnapshotRequest)
  : M (option csi.DeleteSnapshotResponse * option error) :=
  let out := csi.new_DeleteSnapshotResponse in
  '(reply, err) ← ClientConn_Invoke (controller_cc c) ctx "/csi.v1.Controller/DeleteSnapshot"
                     (csi.MDeleteSnapshotRequest in_) (csi.MDeleteSnapshotResponse out) [];
  match err with
  | Some e => mret (None, Some e)
  | None =>
      mret (Some match reply with csi.MDeleteSnapshotResponse r => r | _ => out end, None)
  end.

Definition controllerClient_ListSnapshots (c : controllerClient) (ctx : context.Context)
    (in_ : csi.ListSnapshotsRequest)
  : M (option csi.ListSnapshotsResponse * option error) :=
  let out := csi.new_ListSnapshotsResponse in
  '(reply, err) ← ClientConn_Invoke (controller_cc c) ctx "/csi.v1.Controller/ListSnapshots"
                     (csi.MListSnapshotsRequest in_) (csi.MListSnapshotsResponse out) [];
  match err with
  | Some e => mret (None, Some e)
  | None =>
      mret (Some match reply with csi.MListSnapshotsResponse r => r | _ => out end, None)
  end.

(** ** pkg/connection: the channel *)

Record csiConnection := mkCsiConnection { conn : grpc.ClientConn }.

(** The dialer [connect] installs for a socket path. *)
Definition unixDialer : grpc.Dialer :=
  λ addr timeout, grpc.mkDialTimeout "unix" addr timeout.

(** The dial options [connect] builds for [address]. *)
Definition dialOptions (address : string) : list grpc.DialOption :=
  let dialOptions :=
    [ grpc.WithInsecure;
      grpc.WithBackoffMaxDelay time.Second;
      grpc.WithUnaryInterceptor grpc.interceptor_logGRPC ] in
  if HasPrefix address "/"
  then dialOptions ++ [grpc.WithDialer unixDialer]
  else dialOptions.

(** The [for] loop of [connect]; [fuel] bounds the number of rounds. *)
Fixpoint connect_loop (fuel : nat) (conn : grpc.ClientConn) (ctx : context.Context)
  : M (option grpc.ClientConn * option error) :=
  match fuel with
  | O => hang
  | S fuel =>
      s ← grpc.GetState conn;
      changed ← grpc.WaitForStateChange conn ctx s;
      if negb changed then
        glog_V_Infof 4 "Connection timed out" [];;
        mret (Some conn, None)
      else
        s ← grpc.GetState conn;
        if connectivity.State_eqb s connectivity.Ready then
          glog_V_Infof 3 "Connected" [];;
          mret (Some conn, None)
        else
          s ← grpc.GetState conn;
          glog_V_Infof 4 "Still trying, connection is %s" [arg_state s];;
          connect_loop fuel conn ctx
  end.

(** Every round but the last consumes a pending state change. *)
Definition connect_fuel (w : World) : nat := S (length (chan_events w)).

Definition connect (address : string) (timeout : Z)
  : M (option grpc.ClientConn * option error) :=
  glog_V_Infof 2 "Connecting to %s" [arg_string address];;
  '(conn, err) ← grpc.Dial address (dialOptions address);
  match err with
  | Some e => mret (None, Some e)
  | None =>
      conn ← deref conn;
      ctx ← context_WithTimeout context.Background timeout;
      fuel ← gets connect_fuel;
      connect_loop fuel conn ctx
  end.

Definition New (address : string) (timeout : Z)
  : M (option csiConnection * option error) :=
  '(conn, err) ← connect address timeout;
  match err with
  | Some e => mret (None, Some e)
  | None =>
      conn ← deref conn;
      mret (Some (mkCsiConnection conn), None)
  end.

(** ** pkg/connection: the operations *)

Definition timestampToUnixTime (t : option timestamp.Timestamp) : Z * option error :=
  let '(time, err) := ptypes.Timestamp t in
  match err with
  | Some e => (-1, Some e)
  | None => (time.UnixNano time, None)
  end.

Definition GetDriverName (c : csiConnection) (ctx : context.Context)
  : M (string * option error) :=
  let client := NewIdentityClient (conn c) in
  let req := csi.mkGetPluginInfoRequest in
  '(rsp, err) ← identityClient_GetPluginInfo client ctx req;
  match err with
  | Some e => mret ("", Some e)
  | None =>
      let name := csi.GetName rsp in
      if String.eqb name ""
      then mret ("", Some (fmt_Errorf "name is empty" []))
      else mret (name, None)
  end.

Definition Probe (c : csiConnection) (ctx : context.Context) : M (option error) :=
  let client := NewIdentityClient (conn c) in
  let req := csi.mkProbeRequest in
  '(_, err) ← identityClient_Probe client ctx req;
  match err with
  | Some e => mret (Some e)
  | None => mret None
  end.

(** The [for _, cap := range caps] loop of the two capability queries: true
    as soon as an entry carries the RPC type [want]; nil entries and entries
    without an RPC are passed over. *)
Fixpoint range_caps (want : csi.ControllerServiceCapability_RPC_Type)
    (caps : list (option csi.ControllerServiceCapability)) : bool :=
  match caps with
  | [] => false
  | cap :: caps =>
      match cap with
      | None => range_caps want caps
      | Some _ =>
          let rpc := csi.GetRpc cap in
          match rpc with
          | None => range_caps want caps
          | Some _ =>
              if csi.RPC_GetType rpc =? want then true else range_caps want caps
          end
      end
  end.

Definition SupportsControllerCreateSnapshot (c : csiConnection) (ctx : context.Context)
  : M (bool * option error) :=
  let client := NewControllerClient (conn c) in
  let req := csi.mkControllerGetCapabilitiesRequest in
  '(rsp, err) ← controllerClient_ControllerGetCapabilities client ctx req;
  match err with
  | Some e => mret (false, Some e)
  | None =>
      let caps := csi.GetCapabilities rsp in
      if range_caps csi.ControllerServiceCapability_RPC_CREATE_DELETE_SNAPSHOT caps
      then mret (true, None)
      else mret (false, None)
  end.

Definition SupportsControllerListSnapshots (c : csiConnection) (ctx : context.Context)
  : M (bool * option error) :=
  let client := NewControllerClient (conn c) in
  let req := csi.mkControllerGetCapabilitiesRequest in
  '(rsp, err) ← controllerClient_ControllerGetCapabilities client ctx req;
  match err with
  | Some e => mret (false, Some e)
  | None =>
      let caps := csi.GetCapabilities rsp in
      if range_caps csi.ControllerServiceCapability_RPC_LIST_SNAPSHOTS caps
      then mret (true, None)
      else mret (false, None)
  end.

(** [s[i]] on a slice: out of range panics. *)
Definition index {A : Type} (s : list A) (i : nat) : M A :=
  match s !! i with
  | Some a => mret a
  | None => panic "runtime error: index out of range"
  end.

Definition CreateSnapshot (c : csiConnection) (ctx : context.Context)
    (snapshotName : string) (volume : option v1.PersistentVolume)
    (parameters snapshotterCredentials : gmap string string)
  : M (string * string * Z * Z * bool * option error) :=
  glog_V_Infof 5 "CSI CreateSnapshot: %s" [arg_string snapshotName];;
  volume ← deref volume;
  match v1.CSI (v1.Spec volume) with
  | None =>
      mret ("", "", 0, 0, false,
            Some (fmt_Errorf "CSIPersistentVolumeSource not defined in spec" []))
  | Some volume_Spec_CSI =>
      let client := NewControllerClient (conn c) in
      '(driverName, err) ← GetDriverName c ctx;
      match err with
      | Some e => mret ("", "", 0, 0, false, Some e)
      | None =>
          let req := {|
            csi.CreateSnapshot_SourceVolumeId := v1.VolumeHandle volume_Spec_CSI;
            csi.CreateSnapshot_Name := snapshotName;
            csi.CreateSnapshot_Parameters := parameters;
            csi.CreateSnapshot_Secrets := snapshotterCredentials;
          |} in
          '(rsp, err) ← controllerClient_CreateSnapshot client ctx req;
          match err with
          | Some e => mret ("", "", 0, 0, false, Some e)
          | None =>
              rsp ← deref rsp;
              rsp_Snapshot ← deref (csi.CreateSnapshot_Snapshot rsp);
              glog_V_Infof 5
                "CSI CreateSnapshot: %s driver name [%s] snapshot ID [%s] time stamp [%d] size [%d] readyToUse [%v]"
                [ arg_string snapshotName; arg_string driverName;
                  arg_string (csi.Snapshot_SnapshotId rsp_Snapshot);
                  arg_timestamp (csi.Snapshot_CreationTime rsp_Snapshot);
                  arg_int (csi.Snapshot_SizeBytes rsp_Snapshot);
                  arg_bool (csi.Snapshot_ReadyToUse rsp_Snapshot) ];;
              let '(creationTime, err) :=
                timestampToUnixTime (csi.Snapshot_CreationTime rsp_Snapshot) in
              match err with
              | Some e => mret ("", "", 0, 0, false, Some e)
              | None =>
                  mret (driverName, csi.Snapshot_SnapshotId rsp_Snapshot, creationTime,
                        csi.Snapshot_SizeBytes rsp_Snapshot,
                        csi.Snapshot_ReadyToUse rsp_Snapshot, None)
              end
          end
      end
  end.

Definition DeleteSnapshot (c : csiConnection) (ctx : context.Context)
    (snapshotID : string) (snapshotterCredentials : gmap string string)
  : M (option error) :=
  let client := NewControllerClient (conn c) in
  let req := {|
    csi.DeleteSnapshot_SnapshotId := snapshotID;
    csi.DeleteSnapshot_Secrets := snapshotterCredentials;
  |} in
  '(_, err) ← controllerClient_DeleteSnapshot client ctx req;
  match err with
  | Some e => mret (Some e)
  | None => mret None
  end.

Definition GetSnapshotStatus (c : csiConnection) (ctx : context.Context)
    (snapshotID : string)
  : M (bool * Z * Z * option error) :=
  let client := NewControllerClient (conn c) in
  let req := {|
    csi.ListSnapshots_MaxEntries := 0;
    csi.ListSnapshots_StartingToken := "";
    csi.ListSnapshots_SourceVolumeId := "";
    csi.ListSnapshots_SnapshotId := snapshotID;
  |} in
  '(rsp, err) ← controllerClient_ListSnapshots client ctx req;
  match err with
  | Some e => mret (false, 0, 0, Some e)
  | None =>
      rsp ← deref rsp;
      if bool_decide (length (csi.Entries rsp) = 0%nat) then
        mret (false, 0, 0,
              Some (fmt_Errorf "can not find snapshot for snapshotID %s" [arg_string snapshotID]))
      else
        entry ← index (csi.Entries rsp) 0 ≫= deref;
        snapshot ← deref (csi.Entry_Snapshot entry);
        let '(creationTime, err) := timestampToUnixTime (csi.Snapshot_CreationTime snapshot) in
        match err with
        | Some e => mret (false, 0, 0, Some e)
        | None =>
            mret (csi.Snapshot_ReadyToUse snapshot, creationTime,
                  csi.Snapshot_SizeBytes snapshot, None)
        end
  end.

(** ** Reading a run *)

(** The remote calls a computation issued: what it added to the wire. *)
Definition issued (w w' : World) : list Call := drop (length (wire w)) (wire w').

(** What a generated stub makes of the answer of the driver: the response,
    or nil and the error. *)
Definition answer {A : Type} (r : A * option error) : option A * option error :=
  match r with
  | (rsp, None) => (Some rsp, None)
  | (_, Some e) => (None, Some e)
  end.

(** The world after one call went out: the lines the interceptor logged and
    the call on the wire. *)
Definition sent (method : string) (req : csi.Message) (lines : list glog.line)
    (w : World) : World :=
  set_wire (λ l, l ++ [mkCall method req]) (set_glog_out (λ out, out ++ lines) w).

(** The two calls [CreateSnapshot] makes. *)
Definition fetch_call : Call :=
  mkCall "/csi.v1.Identity/GetPluginInfo"
         (csi.MGetPluginInfoRequest csi.mkGetPluginInfoRequest).

Definition create_call (req : csi.CreateSnapshotRequest) : Call :=
  mkCall "/csi.v1.Controller/CreateSnapshot" (csi.MCreateSnapshotRequest req).

Definition list_request (snapshotID : string) : csi.ListSnapshotsRequest :=
  csi.mkListSnapshotsRequest 0 "" "" snapshotID.

(** ** Notions the properties are stated with *)

(** The encoder of absolute nanoseconds, as a caller of the two libraries
    writes it: [ptypes.TimestampProto(time.Unix(0, n))]. *)
Definition unixNanoToTimestamp (n : Z) : option timestamp.Timestamp * option error :=
  ptypes.TimestampProto (time.Unix 0 n).

(** A wire timestamp is malformed when it is nil, when its seconds lie
    outside the years 1 to 9999, or when its nanoseconds are not a remainder
    in [0, 1e9). *)
Definition malformed (t : option timestamp.Timestamp) : Prop :=
  match t with
  | None => True
  | Some ts =>
      timestamp.Seconds ts < ptypes.minValidSeconds \/
      ptypes.maxValidSeconds <= timestamp.Seconds ts \/
      timestamp.Nanos ts < 0 \/ 1000000000 <= timestamp.Nanos ts
  end.

(** Some entry of the capability list carries an RPC of type [want]. *)
Definition advertises (want : csi.ControllerServiceCapability_RPC_Type)
    (caps : list (option csi.ControllerServiceCapability)) : Prop :=
  exists cap rpc,
    In (Some cap) caps /\
    csi.Capability_Type cap = Some (csi.ControllerServiceCapability_Rpc (Some rpc)) /\
    csi.RPC_Type rpc = want.

(** The volume reference carries no non-empty volume handle. *)
Definition lacks_handle (volume : v1.PersistentVolume) : Prop :=
  match v1.CSI (v1.Spec volume) with
  | None => True
  | Some source => v1.VolumeHandle source = ""
  end.

(** An endpoint address that begins with a slash. *)
Definition begins_with_slash (address : string) : Prop :=
  exists rest, address = "/" +:+ rest.

(** An endpoint address that denotes a local filesystem path: an absolute
    path, or a relative path written from the current or the parent
    directory. *)
Definition denotes_local_path (address : string) : Prop :=
  exists rest,
    address = "/" +:+ rest \/ address = "./" +:+ rest \/ address = "../" +:+ rest.

(** The channel [connect] hands over for [address]. *)
Definition channel_of (address : string) : grpc.ClientConn :=
  grpc.mkClientConn address
    (fold_left grpc.apply (dialOptions address) grpc.defaultDialOptions).

(** ** Sample drivers, worlds and volumes *)

Definition sample_time : timestamp.Timestamp := timestamp.mkTimestamp 1540000000 500.

Definition sample_snapshot (id : string) : csi.Snapshot :=
  csi.mkSnapshot 1024 id "vol-abc" (Some sample_time) true.

Definition sample_caps : list (option csi.ControllerServiceCapability) :=
  [ None;
    Some (csi.mkControllerServiceCapability None);
    Some (csi.mkControllerServiceCapability (Some (csi.ControllerServiceCapability_Rpc None)));
    Some (csi.mkControllerServiceCapability
            (Some (csi.ControllerServiceCapability_Rpc
                     (Some (csi.mkControllerServiceCapability_RPC
                              csi.ControllerServiceCapability_RPC_CREATE_DELETE_SNAPSHOT))))) ].

(** A driver that names itself [name] and answers every snapshot request
    with the snapshot [snap]; it lists [entries]. *)
Definition sample_driver (name : string) (snap : option csi.Snapshot)
    (entries : list (option csi.ListSnapshotsResponse_Entry)) : Driver := {|
  drv_GetPluginInfo := λ _ _ _, (csi.mkGetPluginInfoResponse name "1.0" ∅, None);
  drv_Probe := λ _ _ _, (csi.mkProbeResponse (Some true), None);
  drv_ControllerGetCapabilities := λ _ _ _,
    (csi.mkControllerGetCapabilitiesResponse sample_caps, None);
  drv_CreateSnapshot := λ _ _ _, (csi.mkCreateSnapshotResponse snap, None);
  drv_DeleteSnapshot := λ _ _ _, (csi.mkDeleteSnapshotResponse, None);
  drv_ListSnapshots := λ _ _ _, (csi.mkListSnapshotsResponse entries "", None);
|}.

(** A driver whose every call fails with [e]. *)
Definition failing_driver (e : error) : Driver := {|
  drv_GetPluginInfo := λ _ _ _, (csi.new_GetPluginInfoResponse, Some e);
  drv_Probe := λ _ _ _, (csi.new_ProbeResponse, Some e);
  drv_ControllerGetCapabilities := λ _ _ _,
    (csi.new_ControllerGetCapabilitiesResponse, Some e);
  drv_CreateSnapshot := λ _ _ _, (csi.new_CreateSnapshotResponse, Some e);
  drv_DeleteSnapshot := λ _ _ _, (csi.new_DeleteSnapshotResponse, Some e);
  drv_ListSnapshots := λ _ _ _, (csi.new_ListSnapshotsResponse, Some e);
|}.

Definition Unavailable : error := status_Error 14 "transport is closing".

(** A world at time 0, logging at verbosity 5, whose channel is in
    [state] with the state changes [events] to come, and where a look at the
    state takes no time. *)
Definition sample_world (d : Driver) (state : connectivity.State)
    (events : list (Z * connectivity.State)) : World :=
  mkWorld 5 [] 0 0 None state events d [].

Definition sample_address : string := "/run/csi/socket".

Definition sample_conn : csiConnection := mkCsiConnection (channel_of sample_address).

Definition sample_ctx : context.Context := context.mkContext None.

Definition volume_of (source : option v1.CSIPersistentVolumeSource) : v1.PersistentVolume :=
  v1.mkPersistentVolume "pv-1" (v1.mkPersistentVolumeSpec source).

Definition source_of (handle : string) : v1.CSIPersistentVolumeSource :=
  v1.mkCSIPersistentVolumeSource "csi.example.com" handle false "ext4" ∅.

(** ** Notions for the rest of the package *)

(** The calls of the other operations. *)
Definition probe_call : Call :=
  mkCall "/csi.v1.Identity/Probe" (csi.MProbeRequest csi.mkProbeRequest).

Definition caps_call : Call :=
  mkCall "/csi.v1.Controller/ControllerGetCapabilities"
         (csi.MControllerGetCapabilitiesRequest csi.mkControllerGetCapabilitiesRequest).

Definition delete_call (req : csi.DeleteSnapshotRequest) : Call :=
  mkCall "/csi.v1.Controller/DeleteSnapshot" (csi.MDeleteSnapshotRequest req).

Definition list_call (snapshotID : string) : Call :=
  mkCall "/csi.v1.Controller/ListSnapshots"
         (csi.MListSnapshotsRequest (list_request snapshotID)).

(** A driver that answers the probe with the ready value [ready] and fails
    every other call. *)
Definition probe_driver (ready : option bool) : Driver := {|
  drv_GetPluginInfo := drv_GetPluginInfo (failing_driver Unavailable);
  drv_Probe := λ _ _ _, (csi.mkProbeResponse ready, None);
  drv_ControllerGetCapabilities := drv_ControllerGetCapabilities (failing_driver Unavailable);
  drv_CreateSnapshot := drv_CreateSnapshot (failing_driver Unavailable);
  drv_DeleteSnapshot := drv_DeleteSnapshot (failing_driver Unavailable);
  drv_ListSnapshots := drv_ListSnapshots (failing_driver Unavailable);
|}.

(** A driver that answers the capabilities request with [caps hist], where
    [hist] are the calls that reached it before, and fails every other
    call. *)
Definition caps_driver
    (caps : list Call -> list (option csi.ControllerServiceCapability)) : Driver := {|
  drv_GetPluginInfo := drv_GetPluginInfo (failing_driver Unavailable);
  drv_Probe := drv_Probe (failing_driver Unavailable);
  drv_ControllerGetCapabilities := λ _ hist _,
    (csi.mkControllerGetCapabilitiesResponse (caps hist), None);
  drv_CreateSnapshot := drv_CreateSnapshot (failing_driver Unavailable);
  drv_DeleteSnapshot := drv_DeleteSnapshot (failing_driver Unavailable);
  drv_ListSnapshots := drv_ListSnapshots (failing_driver Unavailable);
|}.

(** The count of nanoseconds a wire timestamp stands for, as a mathematical
    integer. *)
Definition exact_nanos (ts : timestamp.Timestamp) : Z :=
  timestamp.Seconds ts * 1000000000 + timestamp.Nanos ts.

(** One wire timestamp is before another. *)
Definition earlier (a b : timestamp.Timestamp) : Prop :=
  timestamp.Seconds a < timestamp.Seconds b \/
  (timestamp.Seconds a = timestamp.Seconds b /\ timestamp.Nanos a < timestamp.Nanos b).

(** * Properties *)

(** ** Running computations *)

Lemma bind_run {A B : Type} (c : M A) (f : A -> M B) (w : World) :
  (c ≫= f) w =
  match c w with
  | (Returned a, w') => f a w'
  | (Panicked r, w') => (Panicked r, w')
  | (Hung, w') => (Hung, w')
  end.
Proof. reflexivity. Qed.

Lemma set_glog_out_nil w : set_glog_out (λ out, out ++ []) w = w.
Proof. destruct w. unfold set_glog_out. simpl. by rewrite app_nil_r. Qed.

Lemma set_glog_out_app l1 l2 w :
  set_glog_out (λ out, out ++ l2) (set_glog_out (λ out, out ++ l1) w)
  = set_glog_out (λ out, out ++ (l1 ++ l2)) w.
Proof. destruct w. unfold set_glog_out. simpl. by rewrite app_assoc. Qed.

Lemma sent_glog method req l1 l2 l3 w :
  set_glog_out (λ out, out ++ l3) (sent method req l2 (set_glog_out (λ out, out ++ l1) w))
  = sent method req (l1 ++ l2 ++ l3) w.
Proof.
  destruct w. unfold sent, set_wire, set_glog_out. simpl.
  by rewrite !app_assoc.
Qed.

Lemma glog_V_Infof_run n format args w :
  exists lines,
    glog_V_Infof n format args w = (Returned tt, set_glog_out (λ out, out ++ lines) w).
Proof.
  unfold glog_V_Infof, modify. destruct (n <=? glog_v w).
  - by eexists.
  - exists []. by rewrite set_glog_out_nil.
Qed.

(** A call through the channel reaches the driver exactly once, whether or
    not the interceptor is installed, and comes back with the driver's
    answer. *)
Lemma ClientConn_Invoke_run cc ctx method req reply opts w :
  exists lines,
    ClientConn_Invoke cc ctx method req reply opts w
    = (Returned (grpc.serve (remote w) ctx (wire w) method req reply),
       sent method req lines w).
Proof.
  unfold ClientConn_Invoke. destruct (grpc.unaryInt _) as [[]|].
  - unfold logGRPC.
    rewrite bind_run.
    destruct (glog_V_Infof_run 5 "GRPC call: %s" [arg_string method] w) as [l1 ->].
    rewrite bind_run.
    destruct (glog_V_Infof_run 5 "GRPC request: %s" [StripSecrets req]
                (set_glog_out (λ out, out ++ l1) w)) as [l2 ->].
    rewrite set_glog_out_app, bind_run.
    unfold grpc.invoke at 1. cbn [remote wire set_glog_out].
    destruct (grpc.serve _ _ _ _ _ _) as [reply' err].
    rewrite bind_run.
    match goal with
    | |- context [glog_V_Infof 5 ?f ?a ?w0] =>
        destruct (glog_V_Infof_run 5 f a w0) as [l3 ->]
    end.
    rewrite bind_run.
    match goal with
    | |- context [glog_V_Infof 5 ?f ?a ?w0] =>
        destruct (glog_V_Infof_run 5 f a w0) as [l4 ->]
    end.
    rewrite set_glog_out_app.
    exists ((l1 ++ l2) ++ [] ++ (l3 ++ l4)).
    rewrite <- sent_glog. unfold sent. by rewrite set_glog_out_nil.
  - exists []. unfold grpc.invoke, sent. by rewrite set_glog_out_nil.
Qed.

(** ** The generated clients *)

Ltac stub_run :=
  intros;
  match goal with
  | |- exists _, ?stub ?c ?ctx ?req ?w = _ =>
      unfold stub; rewrite bind_run;
      let lines := fresh "lines" in
      match goal with
      | |- context [ClientConn_Invoke ?cc ctx ?m ?a ?r ?o w] =>
          destruct (ClientConn_Invoke_run cc ctx m a r o w) as [lines ->]
      end;
      exists lines; cbn [grpc.serve String.eqb Ascii.eqb Bool.eqb];
      match goal with
      | |- context [?h (remote w) ctx (wire w) req] =>
          destruct (h (remote w) ctx (wire w) req) as [rsp [e|]]
      end; reflexivity
  end.

Lemma GetPluginInfo_run c ctx req w :
  exists lines,
    identityClient_GetPluginInfo c ctx req w
    = (Returned (answer (drv_GetPluginInfo (remote w) ctx (wire w) req)),
       sent "/csi.v1.Identity/GetPluginInfo" (csi.MGetPluginInfoRequest req) lines w).
Proof. stub_run. Qed.

Lemma ControllerGetCapabilities_run c ctx req w :
  exists lines,
    controllerClient_ControllerGetCapabilities c ctx req w
    = (Returned (answer (drv_ControllerGetCapabilities (remote w) ctx (wire w) req)),
       sent "/csi.v1.Controller/ControllerGetCapabilities"
            (csi.MControllerGetCapabilitiesRequest req) lines w).
Proof. stub_run. Qed.

Lemma CreateSnapshot_stub_run c ctx req w :
  exists lines,
    controllerClient_CreateSnapshot c ctx req w
    = (Returned (answer (drv_CreateSnapshot (remote w) ctx (wire w) req)),
       sent "/csi.v1.Controller/CreateSnapshot" (csi.MCreateSnapshotRequest req) lines w).
Proof. stub_run. Qed.

Lemma ListSnapshots_run c ctx req w :
  exists lines,
    controllerClient_ListSnapshots c ctx req w
    = (Returned (answer (drv_ListSnapshots (remote w) ctx (wire w) req)),
       sent "/csi.v1.Controller/ListSnapshots" (csi.MListSnapshotsRequest req) lines w).
Proof. stub_run. Qed.

Lemma issued_app w w' calls : wire w' = wire w ++ calls -> issued w w' = calls.
Proof. intros H. unfold issued. rewrite H. apply drop_app_length. Qed.

(** ** GetDriverName *)

Lemma GetDriverName_run c ctx w :
  exists lines r,
    GetDriverName c ctx w
    = (Returned r, sent "/csi.v1.Identity/GetPluginInfo"
                        (csi.MGetPluginInfoRequest csi.mkGetPluginInfoRequest) lines w) /\
    match drv_GetPluginInfo (remote w) ctx (wire w) csi.mkGetPluginInfoRequest with
    | (_, Some e) => r = ("", Some e)
    | (rsp, None) =>
        if String.eqb (csi.PluginInfo_Name rsp) ""
        then r = ("", Some (fmt_Errorf "name is empty" []))
        else r = (csi.PluginInfo_Name rsp, None)
    end.
Proof.
  unfold GetDriverName. rewrite bind_run.
  destruct (GetPluginInfo_run (NewIdentityClient (conn c)) ctx csi.mkGetPluginInfoRequest w)
    as [lines ->].
  exists lines.
  destruct (drv_GetPluginInfo _ _ _ _) as [rsp [e|]]; cbn [answer].
  - by eexists.
  - cbn [csi.GetName]. destruct (String.eqb _ _); by eexists.
Qed.

(** ** The capability queries *)

Lemma GetRpc_Some cap rpc :
  csi.GetRpc (Some cap) = Some rpc <->
  csi.Capability_Type cap = Some (csi.ControllerServiceCapability_Rpc (Some rpc)).
Proof.
  unfold csi.GetRpc, csi.GetType.
  destruct (csi.Capability_Type cap) as [[[x|]]|]; split; congruence.
Qed.

Lemma range_caps_advertises want caps :
  range_caps want caps = true <-> advertises want caps.
Proof.
  unfold advertises. induction caps as [|cap caps IH]; simpl.
  - split; [done | intros (? & ? & [] & _)].
  - destruct cap as [cap|].
    + destruct (csi.GetRpc (Some cap)) as [rpc|] eqn:E.
      * apply GetRpc_Some in E. simpl.
        destruct (Z.eqb_spec (csi.RPC_Type rpc) want) as [Heq|Hne].
        -- split; [|done]. intros _. exists cap, rpc. auto.
        -- rewrite IH. split.
           ++ intros (cap' & rpc' & Hin & Ht & Hw). exists cap', rpc'. auto.
           ++ intros (cap' & rpc' & [Hin|Hin] & Ht & Hw).
              ** inversion Hin; subst cap'. congruence.
              ** exists cap', rpc'. auto.
      * rewrite IH. split.
        -- intros (cap' & rpc' & Hin & Ht & Hw). exists cap', rpc'. auto.
        -- intros (cap' & rpc' & [Hin|Hin] & Ht & Hw).
           ++ inversion Hin; subst cap'. apply GetRpc_Some in Ht. congruence.
           ++ exists cap', rpc'. auto.
    + rewrite IH. split.
      * intros (cap' & rpc' & Hin & Ht & Hw). exists cap', rpc'. auto.
      * intros (cap' & rpc' & [Hin|Hin] & Ht & Hw); [done|].
        exists cap', rpc'. auto.
Qed.

Lemma SupportsControllerCreateSnapshot_run c ctx w :
  exists lines r,
    SupportsControllerCreateSnapshot c ctx w
    = (Returned r, sent "/csi.v1.Controller/ControllerGetCapabilities"
                        (csi.MControllerGetCapabilitiesRequest
                           csi.mkControllerGetCapabilitiesRequest) lines w) /\
    match drv_ControllerGetCapabilities (remote w) ctx (wire w)
            csi.mkControllerGetCapabilitiesRequest with
    | (_, Some e) => r = (false, Some e)
    | (rsp, None) =>
        r = (range_caps csi.ControllerServiceCapability_RPC_CREATE_DELETE_SNAPSHOT
               (csi.Capabilities rsp), None)
    end.
Proof.
  unfold SupportsControllerCreateSnapshot. rewrite bind_run.
  destruct (ControllerGetCapabilities_run (NewControllerClient (conn c)) ctx
              csi.mkControllerGetCapabilitiesRequest w) as [lines ->].
  exists lines.
  destruct (drv_ControllerGetCapabilities _ _ _ _) as [rsp [e|]]; cbn [answer].
  - by eexists.
  - cbn [csi.GetCapabilities]. destruct (range_caps _ _); by eexists.
Qed.

Lemma SupportsControllerListSnapshots_run c ctx w :
  exists lines r,
    SupportsControllerListSnapshots c ctx w
    = (Returned r, sent "/csi.v1.Controller/ControllerGetCapabilities"
                        (csi.MControllerGetCapabilitiesRequest
                           csi.mkControllerGetCapabilitiesRequest) lines w) /\
    match drv_ControllerGetCapabilities (remote w) ctx (wire w)
            csi.mkControllerGetCapabilitiesRequest with
    | (_, Some e) => r = (false, Some e)
    | (rsp, None) =>
        r = (range_caps csi.ControllerServiceCapability_RPC_LIST_SNAPSHOTS
               (csi.Capabilities rsp), None)
    end.
Proof.
  unfold SupportsControllerListSnapshots. rewrite bind_run.
  destruct (ControllerGetCapabilities_run (NewControllerClient (conn c)) ctx
              csi.mkControllerGetCapabilitiesRequest w) as [lines ->].
  exists lines.
  destruct (drv_ControllerGetCapabilities _ _ _ _) as [rsp [e|]]; cbn [answer].
  - by eexists.
  - cbn [csi.GetCapabilities]. destruct (range_caps _ _); by eexists.
Qed.

(** C4. When the capability call itself succeeds, each capability query
    returns no error, and returns true exactly when some entry of the
    returned list carries an RPC of the queried type
    (CREATE_DELETE_SNAPSHOT, LIST_SNAPSHOTS); nil entries and entries without
    an RPC are passed over, and an unsupported capability gives false with
    no error. *)
Theorem supports_iff_advertised c ctx w rsp :
  drv_ControllerGetCapabilities (remote w) ctx (wire w)
    csi.mkControllerGetCapabilitiesRequest = (rsp, None) ->
  (exists b w',
      SupportsControllerCreateSnapshot c ctx w = (Returned (b, None), w') /\
      (b = true <->
       advertises csi.ControllerServiceCapability_RPC_CREATE_DELETE_SNAPSHOT
         (csi.Capabilities rsp))) /\
  (exists b w',
      SupportsControllerListSnapshots c ctx w = (Returned (b, None), w') /\
      (b = true <->
       advertises csi.ControllerServiceCapability_RPC_LIST_SNAPSHOTS
         (csi.Capabilities rsp))).
Proof.
  intros Hrsp. split.
  - destruct (SupportsControllerCreateSnapshot_run c ctx w) as (lines & r & -> & Hr).
    rewrite Hrsp in Hr. subst r. do 2 eexists. split; [done|].
    apply range_caps_advertises.
  - destruct (SupportsControllerListSnapshots_run c ctx w) as (lines & r & -> & Hr).
    rewrite Hrsp in Hr. subst r. do 2 eexists. split; [done|].
    apply range_caps_advertises.
Qed.

Lemma supports_iff_advertised_witness :
  exists b w',
    SupportsControllerCreateSnapshot sample_conn sample_ctx
      (sample_world (sample_driver "csi.example.com" None []) connectivity.Ready [])
    = (Returned (b, None), w') /\
    (b = true <->
     advertises csi.ControllerServiceCapability_RPC_CREATE_DELETE_SNAPSHOT sample_caps).
Proof.
  exact (proj1 (supports_iff_advertised sample_conn sample_ctx
                  (sample_world (sample_driver "csi.example.com" None []) connectivity.Ready [])
                  (csi.mkControllerGetCapabilitiesResponse sample_caps) eq_refl)).
Defined.

(** ** CreateSnapshot *)

Ltac wire_done :=
  cbn [wire sent set_wire set_glog_out]; rewrite <- ?app_assoc; reflexivity.

Lemma CreateSnapshot_run c ctx snapshotName volume parameters credentials w :
  exists o w' calls,
    CreateSnapshot c ctx snapshotName (Some volume) parameters credentials w = (o, w') /\
    wire w' = wire w ++ calls /\
    match v1.CSI (v1.Spec volume) with
    | None =>
        o = Returned ("", "", 0, 0, false,
                      Some (fmt_Errorf "CSIPersistentVolumeSource not defined in spec" []))
        /\ calls = []
    | Some source =>
        match drv_GetPluginInfo (remote w) ctx (wire w) csi.mkGetPluginInfoRequest with
        | (_, Some e) =>
            o = Returned ("", "", 0, 0, false, Some e) /\ calls = [fetch_call]
        | (info, None) =>
            if String.eqb (csi.PluginInfo_Name info) "" then
              o = Returned ("", "", 0, 0, false, Some (fmt_Errorf "name is empty" []))
              /\ calls = [fetch_call]
            else
              let req :=
                csi.mkCreateSnapshotRequest (v1.VolumeHandle source) snapshotName
                  credentials parameters in
              calls = [fetch_call; create_call req] /\
              match drv_CreateSnapshot (remote w) ctx (wire w ++ [fetch_call]) req with
              | (_, Some e) => o = Returned ("", "", 0, 0, false, Some e)
              | (rsp, None) =>
                  match csi.CreateSnapshot_Snapshot rsp with
                  | None => o = Panicked nil_dereference
                  | Some snap =>
                      match timestampToUnixTime (csi.Snapshot_CreationTime snap) with
                      | (_, Some e) => o = Returned ("", "", 0, 0, false, Some e)
                      | (t, None) =>
                          o = Returned (csi.PluginInfo_Name info, csi.Snapshot_SnapshotId snap,
                                        t, csi.Snapshot_SizeBytes snap,
                                        csi.Snapshot_ReadyToUse snap, None)
                      end
                  end
              end
        end
    end.
Proof.
  unfold CreateSnapshot. rewrite bind_run.
  destruct (glog_V_Infof_run 5 "CSI CreateSnapshot: %s" [arg_string snapshotName] w)
    as [l0 ->].
  rewrite bind_run. cbn [deref]. unfold mret at 1, M_ret at 1.
  destruct (v1.CSI (v1.Spec volume)) as [source|].
  2:{ do 3 eexists. split; [done|]. split; [|done]. simpl. by rewrite app_nil_r. }
  rewrite bind_run.
  destruct (GetDriverName_run c ctx (set_glog_out (λ out, out ++ l0) w))
    as (l1 & r & -> & Hr).
  cbn [remote wire set_glog_out] in Hr.
  destruct (drv_GetPluginInfo _ _ _ _) as [info [e|]].
  { subst r. do 3 eexists. split; [done|]. split; [|done]. done. }
  destruct (String.eqb (csi.PluginInfo_Name info) "").
  { subst r. do 3 eexists. split; [done|]. split; [|done]. done. }
  subst r. rewrite bind_run.
  match goal with
  | |- context [controllerClient_CreateSnapshot ?cl ctx ?rq ?w0] =>
      destruct (CreateSnapshot_stub_run cl ctx rq w0) as [l2 ->]
  end.
  cbn [remote wire set_glog_out sent set_wire].
  change (mkCall "/csi.v1.Identity/GetPluginInfo"
            (csi.MGetPluginInfoRequest csi.mkGetPluginInfoRequest)) with fetch_call.
  change (mkCall "/csi.v1.Controller/CreateSnapshot" (csi.MCreateSnapshotRequest ?r))
    with (create_call r).
  destruct (drv_CreateSnapshot _ _ _ _) as [rsp [e|]]; cbn [answer].
  { do 3 eexists. split; [done|]. split; [|done]. wire_done. }
  rewrite bind_run. cbn [deref]. unfold mret at 1, M_ret at 1.
  rewrite bind_run.
  destruct (csi.CreateSnapshot_Snapshot rsp) as [snap|]; cbn [deref].
  2:{ do 3 eexists. split; [done|]. split; [|done]. wire_done. }
  unfold mret at 1, M_ret at 1. rewrite bind_run.
  match goal with
  | |- context [glog_V_Infof 5 ?f ?a ?w0] =>
      destruct (glog_V_Infof_run 5 f a w0) as [l3 ->]
  end.
  destruct (timestampToUnixTime _) as [t [e|]].
  - do 3 eexists. split; [done|]. split; [|done]. wire_done.
  - do 3 eexists. split; [done|]. split; [|done]. wire_done.
Qed.

Lemma ret_run {A : Type} (a : A) (w : World) : (mret a : M A) w = (Returned a, w).
Proof. reflexivity. Qed.

Lemma CreateSnapshot_nil_volume c ctx snapshotName parameters credentials w :
  exists w',
    CreateSnapshot c ctx snapshotName None parameters credentials w
    = (Panicked nil_dereference, w') /\ wire w' = wire w.
Proof.
  unfold CreateSnapshot. rewrite bind_run.
  destruct (glog_V_Infof_run 5 "CSI CreateSnapshot: %s" [arg_string snapshotName] w)
    as [l0 ->].
  rewrite bind_run. cbn [deref]. by eexists.
Qed.

(** ** GetSnapshotStatus *)

Lemma GetSnapshotStatus_run c ctx snapshotID w :
  exists o lines,
    GetSnapshotStatus c ctx snapshotID w
    = (o, sent "/csi.v1.Controller/ListSnapshots"
               (csi.MListSnapshotsRequest (list_request snapshotID)) lines w) /\
    match drv_ListSnapshots (remote w) ctx (wire w) (list_request snapshotID) with
    | (_, Some e) => o = Returned (false, 0, 0, Some e)
    | (rsp, None) =>
        match csi.Entries rsp with
        | [] =>
            o = Returned (false, 0, 0,
                          Some (fmt_Errorf "can not find snapshot for snapshotID %s"
                                  [arg_string snapshotID]))
        | None :: _ => o = Panicked nil_dereference
        | Some entry :: _ =>
            match csi.Entry_Snapshot entry with
            | None => o = Panicked nil_dereference
            | Some snap =>
                match timestampToUnixTime (csi.Snapshot_CreationTime snap) with
                | (_, Some e) => o = Returned (false, 0, 0, Some e)
                | (t, None) =>
                    o = Returned (csi.Snapshot_ReadyToUse snap, t,
                                  csi.Snapshot_SizeBytes snap, None)
                end
            end
        end
    end.
Proof.
  unfold GetSnapshotStatus. rewrite bind_run.
  match goal with
  | |- context [controllerClient_ListSnapshots ?cl ctx ?rq w] =>
      destruct (ListSnapshots_run cl ctx rq w) as [lines ->]
  end.
  change (csi.mkListSnapshotsRequest 0 "" "" snapshotID) with (list_request snapshotID).
  destruct (drv_ListSnapshots _ _ _ _) as [rsp [e|]]; cbn [answer].
  { by do 2 eexists. }
  rewrite bind_run. cbn [deref]. unfold mret at 1, M_ret at 1.
  destruct (csi.Entries rsp) as [|[entry|] rest]; cbn [length bool_decide].
  - by do 2 eexists.
  - rewrite bool_decide_eq_false_2 by done.
    rewrite !bind_run. cbn [index lookup list_lookup deref].
    rewrite ret_run. cbv beta iota. cbn [deref]. rewrite ret_run. cbv beta iota.
    rewrite bind_run.
    destruct (csi.Entry_Snapshot entry) as [snap|]; cbn [deref].
    + rewrite ret_run. cbv beta iota.
      destruct (timestampToUnixTime _) as [t [e|]]; by do 2 eexists.
    + by do 2 eexists.
  - rewrite bool_decide_eq_false_2 by done.
    rewrite !bind_run. cbn [index lookup list_lookup deref].
    rewrite ret_run. cbv beta iota. cbn [deref]. by do 2 eexists.
Qed.

(** ** Timestamps *)

Lemma wrap64_id z : is_int64 z -> wrap64 z = z.
Proof.
  unfold is_int64, int64_min, int64_max, wrap64. intros H.
  rewrite Z.mod_small; lia.
Qed.

Lemma wrap64_eqm z : (wrap64 z) mod 2 ^ 64 = z mod 2 ^ 64.
Proof.
  unfold wrap64.
  rewrite <- Zminus_mod_idemp_l, Z.mod_mod by lia.
  rewrite Zminus_mod_idemp_l. f_equal. lia.
Qed.

Lemma wrap64_congr a b : a mod 2 ^ 64 = b mod 2 ^ 64 -> wrap64 a = wrap64 b.
Proof.
  intros H. unfold wrap64. f_equal.
  rewrite <- (Zplus_mod_idemp_l a), <- (Zplus_mod_idemp_l b). by rewrite H.
Qed.

Lemma nsec_small n : 0 <= n < 1000000000 -> Z.land n time.nsecMask = n.
Proof.
  intros H. change time.nsecMask with (Z.ones 30).
  rewrite Z.land_ones by lia. apply Z.mod_small. lia.
Qed.

Lemma Unix_normal sec nsec :
  0 <= nsec < 1000000000 -> time.Unix sec nsec = time.unixTime sec nsec.
Proof.
  intros H. unfold time.Unix.
  destruct (nsec <? 0) eqn:E1; [lia|].
  destruct (nsec >=? 1000000000) eqn:E2; [lia|]. done.
Qed.

Lemma Unix_0 n :
  is_int64 n ->
  time.Unix 0 n = time.unixTime (n `div` 1000000000) (n `mod` 1000000000).
Proof.
  intros Hn. unfold time.Unix.
  pose proof (Z.mod_pos_bound n 1000000000 ltac:(lia)) as Hm.
  pose proof (Z.div_mod n 1000000000 ltac:(lia)) as Hd.
  destruct ((n <? 0) || (n >=? 1000000000)) eqn:E.
  - pose proof (Z.quot_rem' n 1000000000) as Hq.
    assert (Hr : -1000000000 < Z.rem n 1000000000 < 1000000000).
    { pose proof (Z.rem_bound_abs n 1000000000). lia. }
    assert (Hsg : (0 <= n -> 0 <= Z.rem n 1000000000) /\
                  (n <= 0 -> Z.rem n 1000000000 <= 0)).
    { split; intros ?; [apply Z.rem_nonneg | apply Z.rem_nonpos]; lia. }
    unfold is_int64, int64_min, int64_max in Hn.
    assert (Hq64 : div64 n 1000000000 = n ÷ 1000000000).
    { apply wrap64_id. unfold is_int64, int64_min, int64_max. lia. }
    rewrite Hq64.
    assert (Hs : add64 0 (n ÷ 1000000000) = n ÷ 1000000000).
    { apply wrap64_id. unfold is_int64, int64_min, int64_max. lia. }
    rewrite Hs.
    assert (Hm64 : mul64 (n ÷ 1000000000) 1000000000 = n ÷ 1000000000 * 1000000000).
    { apply wrap64_id. unfold is_int64, int64_min, int64_max. lia. }
    rewrite Hm64.
    assert (Hsub : sub64 n (n ÷ 1000000000 * 1000000000) = Z.rem n 1000000000).
    { unfold sub64. rewrite wrap64_id; unfold is_int64, int64_min, int64_max; lia. }
    rewrite Hsub.
    destruct (Z.rem n 1000000000 <? 0) eqn:E3.
    + assert (n `div` 1000000000 = n ÷ 1000000000 - 1 /\
              n `mod` 1000000000 = Z.rem n 1000000000 + 1000000000) as [-> ->].
      { apply Z.ltb_lt in E3.
        assert (n = (n ÷ 1000000000 - 1) * 1000000000 + (Z.rem n 1000000000 + 1000000000)) by lia.
        symmetry in H.
        pose proof (Z.div_mod_unique 1000000000 (n `div` 1000000000) (n ÷ 1000000000 - 1)
                      (n `mod` 1000000000) (Z.rem n 1000000000 + 1000000000)).
        lia. }
      f_equal.
      * unfold sub64. apply wrap64_id. unfold is_int64, int64_min, int64_max. lia.
      * unfold add64. apply wrap64_id. unfold is_int64, int64_min, int64_max. lia.
    + assert (n `div` 1000000000 = n ÷ 1000000000 /\
              n `mod` 1000000000 = Z.rem n 1000000000) as [-> ->].
      { apply Z.ltb_ge in E3.
        pose proof (Z.div_mod_unique 1000000000 (n `div` 1000000000) (n ÷ 1000000000)
                      (n `mod` 1000000000) (Z.rem n 1000000000)).
        lia. }
      done.
  - apply orb_false_iff in E as [E1 E2].
    rewrite Z.div_small, Z.mod_small by lia. done.
Qed.

Lemma wrap64_add_l a b : wrap64 (wrap64 a + b) = wrap64 (a + b).
Proof.
  apply wrap64_congr.
  rewrite <- Zplus_mod_idemp_l, wrap64_eqm, Zplus_mod_idemp_l. done.
Qed.

Lemma validateTimestamp_None ts :
  ptypes.validateTimestamp ts = None <-> ¬ malformed ts.
Proof.
  destruct ts as [[s ns]|]; simpl; [|split; [done | tauto]].
  unfold ptypes.validateTimestamp; simpl.
  destruct (s <? ptypes.minValidSeconds) eqn:E1; [split; [done | lia]|].
  destruct (s >=? ptypes.maxValidSeconds) eqn:E2; [split; [done | lia]|].
  destruct (ns <? 0) eqn:E3; simpl; [split; [done | lia]|].
  destruct (ns >=? 1000000000) eqn:E4; simpl; [split; [done | lia]|].
  split; [lia | done].
Qed.

Lemma validateTimestamp_Some ts :
  malformed ts -> exists e, ptypes.validateTimestamp ts = Some e.
Proof.
  intros H. destruct (ptypes.validateTimestamp ts) eqn:E; [eauto|].
  apply validateTimestamp_None in E. done.
Qed.

Lemma sec_roundtrip s :
  ptypes.minValidSeconds <= s < ptypes.maxValidSeconds ->
  add64 (add64 s time.unixToInternal) time.internalToUnix = s.
Proof.
  unfold ptypes.minValidSeconds, ptypes.maxValidSeconds. intros H.
  change time.unixToInternal with 62135596800.
  change time.internalToUnix with (-62135596800).
  unfold add64. rewrite (wrap64_id (s + _)).
  - replace (s + 62135596800 + -62135596800) with s by lia.
    apply wrap64_id. unfold is_int64, int64_min, int64_max. lia.
  - unfold is_int64, int64_min, int64_max. lia.
Qed.

Lemma timestampToUnixTime_wellformed s ns :
  ¬ malformed (Some (timestamp.mkTimestamp s ns)) ->
  timestampToUnixTime (Some (timestamp.mkTimestamp s ns))
  = (wrap64 (s * 1000000000 + ns), None).
Proof.
  intros Hwf. pose proof Hwf as Hv. apply validateTimestamp_None in Hv.
  simpl in Hwf.
  unfold timestampToUnixTime, ptypes.Timestamp. rewrite Hv. simpl.
  rewrite Unix_normal by lia.
  unfold time.UnixNano, time.UTC, time.sec, time.nsec, time.unixTime; simpl.
  rewrite sec_roundtrip by lia.
  rewrite nsec_small by lia.
  unfold add64, mul64. by rewrite wrap64_add_l.
Qed.

Lemma unixNanoToTimestamp_eq n :
  is_int64 n ->
  unixNanoToTimestamp n
  = (Some (timestamp.mkTimestamp (n `div` 1000000000) (n `mod` 1000000000)), None).
Proof.
  intros Hn. unfold unixNanoToTimestamp. rewrite Unix_0 by done.
  pose proof (Z.mod_pos_bound n 1000000000 ltac:(lia)) as Hm.
  pose proof (Z.div_mod n 1000000000 ltac:(lia)) as Hd.
  assert (Hs : ptypes.minValidSeconds <= n `div` 1000000000 < ptypes.maxValidSeconds).
  { unfold is_int64, int64_min, int64_max in Hn.
    unfold ptypes.minValidSeconds, ptypes.maxValidSeconds. lia. }
  unfold ptypes.TimestampProto, time.Time_Unix, time.Time_Nanosecond,
    time.sec, time.nsec, time.unixTime.
  cbn [time.ext time.wall].
  rewrite sec_roundtrip by done. rewrite nsec_small by done.
  cbv zeta. rewrite (proj2 (validateTimestamp_None _)); [done|].
  simpl. lia.
Qed.

(** C3. Decoding inverts encoding: every [int64] count of nanoseconds,
    encoded as a wire timestamp, is decoded back to itself with no error; and
    every malformed wire timestamp (nil, seconds outside the years 1 to
    9999, nanoseconds outside [0, 1e9)) is answered with an error, together
    with the value -1 and no time. *)
Theorem timestampToUnixTime_roundtrip (n : Z) (t : option timestamp.Timestamp) :
  (is_int64 n ->
   exists ts, unixNanoToTimestamp n = (Some ts, None) /\
              timestampToUnixTime (Some ts) = (n, None)) /\
  (malformed t -> exists e, timestampToUnixTime t = (-1, Some e)).
Proof.
  split.
  - intros Hn. eexists. split; [by apply unixNanoToTimestamp_eq|].
    pose proof (Z.mod_pos_bound n 1000000000 ltac:(lia)) as Hm.
    pose proof (Z.div_mod n 1000000000 ltac:(lia)) as Hd.
    rewrite timestampToUnixTime_wellformed.
    + f_equal. rewrite <- (wrap64_id n) at 3 by done. f_equal. lia.
    + simpl. unfold is_int64, int64_min, int64_max in Hn.
      unfold ptypes.minValidSeconds, ptypes.maxValidSeconds. lia.
  - intros [e He]%validateTimestamp_Some. exists e.
    unfold timestampToUnixTime, ptypes.Timestamp. by rewrite He.
Qed.

Lemma timestampToUnixTime_roundtrip_witness :
  (exists ts, unixNanoToTimestamp (-1) = (Some ts, None) /\
              timestampToUnixTime (Some ts) = (-1, None)) /\
  (exists e, timestampToUnixTime (Some (timestamp.mkTimestamp 5 1000000000)) = (-1, Some e)).
Proof.
  split.
  - apply (proj1 (timestampToUnixTime_roundtrip (-1) None)).
    unfold is_int64, int64_min, int64_max. lia.
  - apply (proj2 (timestampToUnixTime_roundtrip 0
                    (Some (timestamp.mkTimestamp 5 1000000000)))).
    simpl. lia.
Defined.

(** A success of the decoder comes from a well-formed timestamp, and is its
    count of nanoseconds reduced to [int64]. *)
Lemma timestampToUnixTime_ok t n :
  timestampToUnixTime t = (n, None) ->
  exists ts, t = Some ts /\ ¬ malformed t /\
             n = wrap64 (timestamp.Seconds ts * 1000000000 + timestamp.Nanos ts).
Proof.
  intros H.
  assert (Hv : ptypes.validateTimestamp t = None).
  { unfold timestampToUnixTime, ptypes.Timestamp in H.
    destruct (ptypes.validateTimestamp t); [done|done]. }
  apply validateTimestamp_None in Hv.
  destruct t as [[s ns]|]; [|by destruct Hv].
  rewrite timestampToUnixTime_wellformed in H by done.
  eexists. split; [done|]. split; [done|]. simpl. congruence.
Qed.

(** The decoder does not check that the nanoseconds fit [int64]: a
    well-formed timestamp after the year 2262 is decoded, with no error, to
    a count that wrapped around. *)
Example timestampToUnixTime_wraps :
  ¬ malformed (Some (timestamp.mkTimestamp 9223372037 0)) /\
  timestampToUnixTime (Some (timestamp.mkTimestamp 9223372037 0))
  = (-9223372036709551616, None).
Proof.
  split; [|reflexivity].
  simpl. unfold ptypes.minValidSeconds, ptypes.maxValidSeconds. lia.
Qed.

(** ** The volume reference of CreateSnapshot *)

(** C1, as the code has it.  When the volume has no CSI source
    ([volume.Spec.CSI] is nil), [CreateSnapshot] returns the precondition
    error with zero values and issues no remote call: neither the driver-name
    fetch nor the create request is attempted. *)
Theorem CreateSnapshot_without_source c ctx snapshotName volume parameters credentials w :
  v1.CSI (v1.Spec volume) = None ->
  exists w',
    CreateSnapshot c ctx snapshotName (Some volume) parameters credentials w
    = (Returned ("", "", 0, 0, false,
                 Some (fmt_Errorf "CSIPersistentVolumeSource not defined in spec" [])), w')
    /\ issued w w' = [].
Proof.
  intros Hnil.
  destruct (CreateSnapshot_run c ctx snapshotName volume parameters credentials w)
    as (o & w' & calls & Hrun & Hwire & Hcase).
  rewrite Hnil in Hcase. destruct Hcase as [-> ->].
  exists w'. split; [done|]. by apply issued_app.
Qed.

Lemma CreateSnapshot_without_source_witness :
  exists w',
    CreateSnapshot sample_conn sample_ctx "snap-1" (Some (volume_of None)) ∅ ∅
      (sample_world (sample_driver "csi.example.com" (Some (sample_snapshot "snap-xyz")) [])
         connectivity.Ready [])
    = (Returned ("", "", 0, 0, false,
                 Some (fmt_Errorf "CSIPersistentVolumeSource not defined in spec" [])), w')
    /\ issued
         (sample_world (sample_driver "csi.example.com" (Some (sample_snapshot "snap-xyz")) [])
            connectivity.Ready []) w' = [].
Proof.
  exact (CreateSnapshot_without_source sample_conn sample_ctx "snap-1" (volume_of None) ∅ ∅
           (sample_world (sample_driver "csi.example.com" (Some (sample_snapshot "snap-xyz")) [])
              connectivity.Ready [])
           eq_refl).
Defined.

(** C1 as stated fails: a volume whose CSI source is present with an empty
    volume handle lacks a non-empty handle, yet [CreateSnapshot] does not
    fail and issues both remote calls, sending the empty handle to the
    driver. *)
Lemma CreateSnapshot_empty_handle_proceeds :
  lacks_handle (volume_of (Some (source_of ""))) /\
  exists w',
    CreateSnapshot sample_conn sample_ctx "snap-1"
      (Some (volume_of (Some (source_of "")))) ∅ ∅
      (sample_world (sample_driver "csi.example.com" (Some (sample_snapshot "snap-xyz")) [])
         connectivity.Ready [])
    = (Returned ("csi.example.com", "snap-xyz", 1540000000000000500, 1024, true, None), w')
    /\ issued
         (sample_world (sample_driver "csi.example.com" (Some (sample_snapshot "snap-xyz")) [])
            connectivity.Ready []) w'
       = [fetch_call; create_call (csi.mkCreateSnapshotRequest "" "snap-1" ∅ ∅)].
Proof.
  split; [reflexivity|].
  eexists. split; [vm_compute; reflexivity|]. vm_compute. reflexivity.
Qed.

(** ** The order of the remote calls of CreateSnapshot *)

(** C7. Whatever the volume and the driver, the remote calls of one
    [CreateSnapshot] are a prefix of: the driver-name fetch, then the create
    request.  A success has issued exactly these two, in this order; and when
    the driver-name fetch fails, the operation returns that error with the
    fetch as its only remote call. *)
Theorem CreateSnapshot_call_order c ctx snapshotName volume parameters credentials w :
  exists o w',
    CreateSnapshot c ctx snapshotName volume parameters credentials w = (o, w') /\
    (issued w w' = [] \/ issued w w' = [fetch_call] \/
     exists req, issued w w' = [fetch_call; create_call req]) /\
    (forall r, o = Returned (r, None) ->
               exists req, issued w w' = [fetch_call; create_call req]) /\
    (forall v source name e w1,
        volume = Some v -> v1.CSI (v1.Spec v) = Some source ->
        GetDriverName c ctx w = (Returned (name, Some e), w1) ->
        o = Returned ("", "", 0, 0, false, Some e) /\ issued w w' = [fetch_call]).
Proof.
  destruct volume as [volume|].
  2:{ destruct (CreateSnapshot_nil_volume c ctx snapshotName parameters credentials w)
        as (w' & Hrun & Hwire).
      exists (Panicked nil_dereference), w'. split; [done|].
      assert (issued w w' = []) as ->.
      { apply issued_app. by rewrite app_nil_r. }
      split; [by left|]. split; [done|]. intros ? ? ? ? ? [=]. }
  destruct (CreateSnapshot_run c ctx snapshotName volume parameters credentials w)
    as (o & w' & calls & Hrun & Hwire & Hcase).
  exists o, w'. split; [done|].
  rewrite (issued_app _ _ _ Hwire).
  destruct (GetDriverName_run c ctx w) as (l & r & Hname & Hr).
  simpl. destruct (v1.CSI (v1.Spec volume)) as [source|] eqn:Ecsi.
  2:{ destruct Hcase as [-> ->]. split; [by left|]. split; [done|].
      intros ? ? ? ? ? [= <-] ?. congruence. }
  destruct (drv_GetPluginInfo _ _ _ _) as [info [e|]].
  { destruct Hcase as [-> ->]. split; [right; by left|]. split; [done|].
    intros ? ? ? ? ? _ _ Hfail. rewrite Hname in Hfail. by simplify_eq. }
  destruct (String.eqb _ _).
  { destruct Hcase as [-> ->]. split; [right; by left|]. split; [done|].
    intros ? ? ? ? ? _ _ Hfail. rewrite Hname in Hfail. by simplify_eq. }
  cbv zeta in Hcase. destruct Hcase as [-> Hcase].
  split; [right; right; by eexists|]. split; [by eexists|].
  intros ? ? ? ? ? _ _ Hfail. rewrite Hname in Hfail. by simplify_eq.
Qed.

Lemma CreateSnapshot_call_order_witness :
  exists o w' req,
    CreateSnapshot sample_conn sample_ctx "snap-1"
      (Some (volume_of (Some (source_of "vol-abc")))) ∅ ∅
      (sample_world (sample_driver "csi.example.com" (Some (sample_snapshot "snap-xyz")) [])
         connectivity.Ready [])
    = (o, w') /\
    issued
      (sample_world (sample_driver "csi.example.com" (Some (sample_snapshot "snap-xyz")) [])
         connectivity.Ready []) w'
    = [fetch_call; create_call req].
Proof.
  destruct (CreateSnapshot_call_order sample_conn sample_ctx "snap-1"
              (Some (volume_of (Some (source_of "vol-abc")))) ∅ ∅
              (sample_world
                 (sample_driver "csi.example.com" (Some (sample_snapshot "snap-xyz")) [])
                 connectivity.Ready []))
    as (o & w' & Hrun & _ & Hsuccess & _).
  assert (Ho : o = Returned ("csi.example.com", "snap-xyz", 1540000000000000500,
                             1024, true, None)).
  { pose proof (f_equal fst Hrun) as Hfst. cbn [fst] in Hfst.
    rewrite <- Hfst. vm_compute. reflexivity. }
  destruct (Hsuccess _ Ho) as [req Hreq].
  exists o, w', req. split; [exact Hrun | exact Hreq].
Defined.

(** ** GetSnapshotStatus and its entries *)

(** C5. When the list call succeeds with no entry, [GetSnapshotStatus]
    returns the "can not find snapshot" error for the given id (with zero
    values, not a success).  When it succeeds with entries, the outcome
    depends on the first entry only: two answers with the same first entry
    give the same outcome, and a first entry with a snapshot and a
    well-formed creation time gives that snapshot's ready flag, creation
    time in nanoseconds and size. *)
Theorem GetSnapshotStatus_first_entry c ctx snapshotID w1 w2 rsp1 rsp2 :
  drv_ListSnapshots (remote w1) ctx (wire w1) (list_request snapshotID) = (rsp1, None) ->
  drv_ListSnapshots (remote w2) ctx (wire w2) (list_request snapshotID) = (rsp2, None) ->
  (csi.Entries rsp1 = [] ->
   (GetSnapshotStatus c ctx snapshotID w1).1
   = Returned (false, 0, 0,
               Some (fmt_Errorf "can not find snapshot for snapshotID %s"
                       [arg_string snapshotID]))) /\
  (forall first rest1 rest2,
      csi.Entries rsp1 = first :: rest1 -> csi.Entries rsp2 = first :: rest2 ->
      (GetSnapshotStatus c ctx snapshotID w1).1 = (GetSnapshotStatus c ctx snapshotID w2).1) /\
  (forall snap ts rest,
      csi.Entries rsp1 = Some (csi.mkListSnapshotsResponse_Entry (Some snap)) :: rest ->
      csi.Snapshot_CreationTime snap = Some ts -> ¬ malformed (Some ts) ->
      (GetSnapshotStatus c ctx snapshotID w1).1
      = Returned (csi.Snapshot_ReadyToUse snap,
                  wrap64 (timestamp.Seconds ts * 1000000000 + timestamp.Nanos ts),
                  csi.Snapshot_SizeBytes snap, None)).
Proof.
  intros H1 H2.
  destruct (GetSnapshotStatus_run c ctx snapshotID w1) as (o1 & l1 & -> & Ho1).
  destruct (GetSnapshotStatus_run c ctx snapshotID w2) as (o2 & l2 & -> & Ho2).
  rewrite H1 in Ho1. rewrite H2 in Ho2. cbn [fst].
  split; [|split].
  - intros E. by rewrite E in Ho1.
  - intros first rest1 rest2 E1 E2. rewrite E1 in Ho1. rewrite E2 in Ho2.
    destruct first as [entry|]; [|congruence].
    destruct (csi.Entry_Snapshot entry) as [snap|]; [|congruence].
    destruct (timestampToUnixTime _) as [t [e|]]; congruence.
  - intros snap [s ns] rest E Ht Hwf. rewrite E in Ho1. cbn [csi.Entry_Snapshot] in Ho1.
    rewrite Ht, timestampToUnixTime_wellformed in Ho1 by done. done.
Qed.

Lemma GetSnapshotStatus_first_entry_witness :
  (GetSnapshotStatus sample_conn sample_ctx "nonexistent"
     (sample_world (sample_driver "csi.example.com" None []) connectivity.Ready [])).1
  = Returned (false, 0, 0,
              Some (fmt_Errorf "can not find snapshot for snapshotID %s"
                      [arg_string "nonexistent"])).
Proof.
  exact (proj1 (GetSnapshotStatus_first_entry sample_conn sample_ctx "nonexistent"
                  (sample_world (sample_driver "csi.example.com" None []) connectivity.Ready [])
                  (sample_world (sample_driver "csi.example.com" None []) connectivity.Ready [])
                  (csi.mkListSnapshotsResponse [] "") (csi.mkListSnapshotsResponse [] "")
                  eq_refl eq_refl) eq_refl).
Defined.

(** ** Zero values next to an error *)

(** C10. Whenever an operation of the connection returns a non-nil error,
    its other results are the zero values of their types: the empty string,
    0 and false.  In particular a capability query never returns true with an
    error, and the -1 of [timestampToUnixTime] does not reach the caller. *)
Theorem error_with_zero_values c ctx w :
  (forall name e w',
      GetDriverName c ctx w = (Returned (name, Some e), w') -> name = "") /\
  (forall b e w',
      SupportsControllerCreateSnapshot c ctx w = (Returned (b, Some e), w') -> b = false) /\
  (forall b e w',
      SupportsControllerListSnapshots c ctx w = (Returned (b, Some e), w') -> b = false) /\
  (forall snapshotName volume parameters credentials driverName snapshotId t size ready e w',
      CreateSnapshot c ctx snapshotName volume parameters credentials w
      = (Returned (driverName, snapshotId, t, size, ready, Some e), w') ->
      (driverName, snapshotId, t, size, ready) = ("", "", 0, 0, false)) /\
  (forall snapshotID ready t size e w',
      GetSnapshotStatus c ctx snapshotID w = (Returned (ready, t, size, Some e), w') ->
      (ready, t, size) = (false, 0, 0)).
Proof.
  repeat split.
  - intros name e w' H.
    destruct (GetDriverName_run c ctx w) as (l & r & Hrun & Hr).
    rewrite Hrun in H.
    destruct (drv_GetPluginInfo _ _ _ _) as [info [e'|]];
      [|destruct (String.eqb _ _)]; by simplify_eq.
  - intros b e w' H.
    destruct (SupportsControllerCreateSnapshot_run c ctx w) as (l & r & Hrun & Hr).
    rewrite Hrun in H.
    destruct (drv_ControllerGetCapabilities _ _ _ _) as [rsp [e'|]]; by simplify_eq.
  - intros b e w' H.
    destruct (SupportsControllerListSnapshots_run c ctx w) as (l & r & Hrun & Hr).
    rewrite Hrun in H.
    destruct (drv_ControllerGetCapabilities _ _ _ _) as [rsp [e'|]]; by simplify_eq.
  - intros snapshotName [volume|] parameters credentials d id t size ready e w' H.
    2:{ destruct (CreateSnapshot_nil_volume c ctx snapshotName parameters credentials w)
          as (w1 & Hrun & _). rewrite Hrun in H. done. }
    destruct (CreateSnapshot_run c ctx snapshotName volume parameters credentials w)
      as (o & w1 & calls & Hrun & _ & Hcase).
    rewrite Hrun in H.
    destruct (v1.CSI (v1.Spec volume)) as [source|]; [|destruct Hcase; by simplify_eq].
    destruct (drv_GetPluginInfo _ _ _ _) as [info [e'|]]; [destruct Hcase; by simplify_eq|].
    destruct (String.eqb _ _); [destruct Hcase; by simplify_eq|].
    cbv zeta in Hcase. destruct Hcase as [_ Hcase].
    destruct (drv_CreateSnapshot _ _ _ _) as [rsp [e'|]]; [by simplify_eq|].
    destruct (csi.CreateSnapshot_Snapshot rsp) as [snap|]; [|by simplify_eq].
    destruct (timestampToUnixTime _) as [t' [e'|]]; by simplify_eq.
  - intros snapshotID ready t size e w' H.
    destruct (GetSnapshotStatus_run c ctx snapshotID w) as (o & l & Hrun & Hcase).
    rewrite Hrun in H.
    destruct (drv_ListSnapshots _ _ _ _) as [rsp [e'|]]; [by simplify_eq|].
    destruct (csi.Entries rsp) as [|[entry|] rest]; [by simplify_eq| |by simplify_eq].
    destruct (csi.Entry_Snapshot entry) as [snap|]; [|by simplify_eq].
    destruct (timestampToUnixTime _) as [t' [e'|]]; by simplify_eq.
Qed.

Lemma error_with_zero_values_witness :
  exists name e w',
    GetDriverName sample_conn sample_ctx
      (sample_world (failing_driver Unavailable) connectivity.Ready [])
    = (Returned (name, Some e), w') /\ name = "".
Proof.
  eexists _, _, _. split; [vm_compute; reflexivity|].
  eapply (proj1 (error_with_zero_values sample_conn sample_ctx
                   (sample_world (failing_driver Unavailable) connectivity.Ready []))).
  vm_compute. reflexivity.
Defined.

(** ** What a success is made of *)

(** C2, as the code has it.  The checks the operations make on a response
    are: the driver name is not empty ([GetDriverName], and through it
    [CreateSnapshot]); the entry list is not empty ([GetSnapshotStatus]); the
    creation time is present and well-formed (both snapshot operations).  A
    response failing one of them is answered with an error.  Every success
    is built from a response that passed them, and hands over the snapshot
    id, the size and the ready flag as the driver sent them, unchecked. *)
Theorem success_from_checked_response c ctx w :
  (forall info,
      drv_GetPluginInfo (remote w) ctx (wire w) csi.mkGetPluginInfoRequest = (info, None) ->
      csi.PluginInfo_Name info = "" ->
      (GetDriverName c ctx w).1 = Returned ("", Some (fmt_Errorf "name is empty" []))) /\
  (forall name w',
      GetDriverName c ctx w = (Returned (name, None), w') ->
      name <> "" /\
      exists info,
        drv_GetPluginInfo (remote w) ctx (wire w) csi.mkGetPluginInfoRequest = (info, None) /\
        name = csi.PluginInfo_Name info) /\
  (forall snapshotName volume parameters credentials driverName snapshotId t size ready w',
      CreateSnapshot c ctx snapshotName volume parameters credentials w
      = (Returned (driverName, snapshotId, t, size, ready, None), w') ->
      driverName <> "" /\
      exists req rsp snap ts,
        drv_CreateSnapshot (remote w) ctx (wire w ++ [fetch_call]) req = (rsp, None) /\
        csi.CreateSnapshot_Snapshot rsp = Some snap /\
        csi.Snapshot_CreationTime snap = Some ts /\ ¬ malformed (Some ts) /\
        snapshotId = csi.Snapshot_SnapshotId snap /\
        t = wrap64 (timestamp.Seconds ts * 1000000000 + timestamp.Nanos ts) /\
        size = csi.Snapshot_SizeBytes snap /\
        ready = csi.Snapshot_ReadyToUse snap) /\
  (forall snapshotID ready t size w',
      GetSnapshotStatus c ctx snapshotID w = (Returned (ready, t, size, None), w') ->
      exists rsp entry rest snap ts,
        drv_ListSnapshots (remote w) ctx (wire w) (list_request snapshotID) = (rsp, None) /\
        csi.Entries rsp = Some entry :: rest /\
        csi.Entry_Snapshot entry = Some snap /\
        csi.Snapshot_CreationTime snap = Some ts /\ ¬ malformed (Some ts) /\
        ready = csi.Snapshot_ReadyToUse snap /\
        t = wrap64 (timestamp.Seconds ts * 1000000000 + timestamp.Nanos ts) /\
        size = csi.Snapshot_SizeBytes snap).
Proof.
  split; [|split; [|split]].
  - intros info Hinfo Hname.
    destruct (GetDriverName_run c ctx w) as (l & r & -> & Hr).
    rewrite Hinfo, Hname in Hr. cbn in Hr. by subst r.
  - intros name w' H.
    destruct (GetDriverName_run c ctx w) as (l & r & Hrun & Hr).
    rewrite Hrun in H.
    destruct (drv_GetPluginInfo _ _ _ _) as [info [e'|]]; [by simplify_eq|].
    destruct (String.eqb_spec (csi.PluginInfo_Name info) ""); [by simplify_eq|].
    simplify_eq. split; [done|]. by eexists.
  - intros snapshotName [volume|] parameters credentials d id t size ready w' H.
    2:{ destruct (CreateSnapshot_nil_volume c ctx snapshotName parameters credentials w)
          as (w1 & Hrun & _). rewrite Hrun in H. done. }
    destruct (CreateSnapshot_run c ctx snapshotName volume parameters credentials w)
      as (o & w1 & calls & Hrun & _ & Hcase).
    rewrite Hrun in H.
    destruct (v1.CSI (v1.Spec volume)) as [source|]; [|destruct Hcase; by simplify_eq].
    destruct (drv_GetPluginInfo _ _ _ _) as [info [e'|]]; [destruct Hcase; by simplify_eq|].
    destruct (String.eqb_spec (csi.PluginInfo_Name info) "");
      [destruct Hcase; by simplify_eq|].
    cbv zeta in Hcase. destruct Hcase as [_ Hcase].
    destruct (drv_CreateSnapshot _ _ _ _) as [rsp [e'|]] eqn:Ersp; [by simplify_eq|].
    destruct (csi.CreateSnapshot_Snapshot rsp) as [snap|] eqn:Esnap; [|by simplify_eq].
    destruct (timestampToUnixTime _) as [t' [e'|]] eqn:Et; [by simplify_eq|].
    apply timestampToUnixTime_ok in Et as (ts & Hts & Hwf & ->).
    simplify_eq. split; [done|].
    eexists _, _, _, _. split; [exact Ersp|]. rewrite Hts in Hwf. done.
  - intros snapshotID ready t size w' H.
    destruct (GetSnapshotStatus_run c ctx snapshotID w) as (o & l & Hrun & Hcase).
    rewrite Hrun in H.
    destruct (drv_ListSnapshots _ _ _ _) as [rsp [e'|]]; [by simplify_eq|].
    destruct (csi.Entries rsp) as [|[entry|] rest] eqn:Eent;
      [by simplify_eq| |by simplify_eq].
    destruct (csi.Entry_Snapshot entry) as [snap|] eqn:Esnap; [|by simplify_eq].
    destruct (timestampToUnixTime _) as [t' [e'|]] eqn:Et; [by simplify_eq|].
    apply timestampToUnixTime_ok in Et as (ts & Hts & Hwf & ->).
    simplify_eq. rewrite Hts in Hwf.
    exists rsp, entry, rest, snap, ts. done.
Qed.

Lemma success_from_checked_response_witness :
  (GetDriverName sample_conn sample_ctx
     (sample_world (sample_driver "" None []) connectivity.Ready [])).1
  = Returned ("", Some (fmt_Errorf "name is empty" [])).
Proof.
  exact (proj1 (success_from_checked_response sample_conn sample_ctx
                  (sample_world (sample_driver "" None []) connectivity.Ready []))
           (csi.mkGetPluginInfoResponse "" "1.0" ∅) eq_refl eq_refl).
Defined.

(** C2 as stated fails: a create response whose snapshot carries an empty
    snapshot id is returned as a success with the empty id. *)
Lemma CreateSnapshot_empty_id_succeeds :
  exists w',
    CreateSnapshot sample_conn sample_ctx "snap-1"
      (Some (volume_of (Some (source_of "vol-abc")))) ∅ ∅
      (sample_world (sample_driver "csi.example.com" (Some (sample_snapshot "")) [])
         connectivity.Ready [])
    = (Returned ("csi.example.com", "", 1540000000000000500, 1024, true, None), w').
Proof. eexists. vm_compute. reflexivity. Qed.

(** The missing descriptor is not answered with an error either: the
    dereference of the nil snapshot panics. *)
Example CreateSnapshot_nil_snapshot_panics :
  (CreateSnapshot sample_conn sample_ctx "snap-1"
     (Some (volume_of (Some (source_of "vol-abc")))) ∅ ∅
     (sample_world (sample_driver "csi.example.com" None []) connectivity.Ready [])).1
  = Panicked nil_dereference.
Proof. vm_compute. reflexivity. Qed.

Example GetSnapshotStatus_nil_snapshot_panics :
  (GetSnapshotStatus sample_conn sample_ctx "snap-xyz"
     (sample_world
        (sample_driver "csi.example.com" None [Some (csi.mkListSnapshotsResponse_Entry None)])
        connectivity.Ready [])).1
  = Panicked nil_dereference.
Proof. vm_compute. reflexivity. Qed.

(** ** The interceptor *)

Lemma logGRPC_run ctx method req reply cc (invoker : grpc.UnaryInvoker) opts w :
  exists before after : list glog.line,
    (logGRPC ctx method req reply cc invoker opts w).1
    = (invoker ctx method req reply cc opts (set_glog_out (λ out, out ++ before) w)).1 /\
    (logGRPC ctx method req reply cc invoker opts w).2
    = set_glog_out (λ out, out ++ after)
        (invoker ctx method req reply cc opts (set_glog_out (λ out, out ++ before) w)).2.
Proof.
  unfold logGRPC. rewrite bind_run.
  destruct (glog_V_Infof_run 5 "GRPC call: %s" [arg_string method] w) as [l1 ->].
  rewrite bind_run.
  destruct (glog_V_Infof_run 5 "GRPC request: %s" [StripSecrets req]
              (set_glog_out (λ out, out ++ l1) w)) as [l2 ->].
  rewrite set_glog_out_app, bind_run. exists (l1 ++ l2).
  destruct (invoker _ _ _ _ _ _ _) as [[[reply' err]|r|] w2]; cbn [fst snd].
  - rewrite bind_run.
    destruct (glog_V_Infof_run 5 "GRPC response: %s" [StripSecrets reply'] w2) as [l3 ->].
    rewrite bind_run.
    destruct (glog_V_Infof_run 5 "GRPC error: %v" [arg_error err]
                (set_glog_out (λ out, out ++ l3) w2)) as [l4 ->].
    rewrite set_glog_out_app. exists (l3 ++ l4). done.
  - exists []. by rewrite set_glog_out_nil.
  - exists []. by rewrite set_glog_out_nil.
Qed.

(** C9. [logGRPC] calls the invoker once, with the context, method,
    request, reply, channel and options it was given, and ends as the invoker
    ends: it returns the reply and the error of the invoker, unchanged.  All
    it adds are glog lines, before and after the call.  Over the transport,
    the reply, the error and the calls on the wire are those of the bare
    transport. *)
Theorem logGRPC_observational ctx method req reply cc (invoker : grpc.UnaryInvoker) opts w :
  (exists before after : list glog.line,
      (logGRPC ctx method req reply cc invoker opts w).1
      = (invoker ctx method req reply cc opts (set_glog_out (λ out, out ++ before) w)).1 /\
      (logGRPC ctx method req reply cc invoker opts w).2
      = set_glog_out (λ out, out ++ after)
          (invoker ctx method req reply cc opts (set_glog_out (λ out, out ++ before) w)).2) /\
  (logGRPC ctx method req reply cc grpc.invoke opts w).1
  = (grpc.invoke ctx method req reply cc opts w).1 /\
  wire (logGRPC ctx method req reply cc grpc.invoke opts w).2
  = wire (grpc.invoke ctx method req reply cc opts w).2.
Proof.
  split; [apply logGRPC_run|].
  destruct (logGRPC_run ctx method req reply cc grpc.invoke opts w)
    as (before & after & -> & ->).
  split; reflexivity.
Qed.

Example logGRPC_keeps_error :
  (logGRPC sample_ctx "/csi.v1.Identity/Probe" (csi.MProbeRequest csi.mkProbeRequest)
     (csi.MProbeResponse csi.new_ProbeResponse) (channel_of sample_address) grpc.invoke []
     (sample_world (failing_driver Unavailable) connectivity.Ready [])).1
  = Returned (csi.MProbeResponse csi.new_ProbeResponse, Some Unavailable).
Proof. vm_compute. reflexivity. Qed.

(** ** The channel *)

Lemma State_eqb_eq a b : connectivity.State_eqb a b = true <-> a = b.
Proof. destruct a, b; simpl; split; congruence. Qed.

Lemma State_eqb_refl a : connectivity.State_eqb a a = true.
Proof. by apply State_eqb_eq. Qed.

Lemma State_eqb_neq a b : connectivity.State_eqb a b = false <-> a <> b.
Proof. destruct a, b; simpl; split; congruence. Qed.

Lemma HasPrefix_slash address : HasPrefix address "/" = true <-> begins_with_slash address.
Proof.
  unfold HasPrefix, begins_with_slash.
  destruct address as [|a rest]; cbn [String.prefix String.append].
  - split; [done | intros [? ?]; done].
  - destruct (Ascii.ascii_dec "/"%char a) as [<-|Hne].
    + split; [intros _; by exists rest | by destruct rest].
    + split; [done | intros [rest' [= ? ?]]; done].
Qed.

(** A state change found by [WaitForStateChange] uses up at least one
    pending event. *)
Lemma next_change_length ctx src evs t s rest :
  grpc.next_change ctx src evs = Some (t, s, rest) -> (length rest < length evs)%nat.
Proof.
  induction evs as [|[t0 s0] evs IH]; simpl; [done|].
  destruct (context.expired ctx t0); [done|].
  destruct (connectivity.State_eqb s0 src).
  - intros H. apply IH in H. lia.
  - intros [= _ _ ->]. lia.
Qed.

(** A look at the channel uses up the state changes that have happened,
    and at least one of them when the state it finds is a new one. *)
Lemma catch_up_length t s evs :
  (length (grpc.catch_up t s evs).2 <= length evs)%nat /\
  ((grpc.catch_up t s evs).1 <> s -> (length (grpc.catch_up t s evs).2 < length evs)%nat).
Proof.
  revert s. induction evs as [|[t0 s0] evs IH]; intros s; simpl.
  - split; [lia | done].
  - destruct (t0 <=? t).
    + destruct (IH s0) as [Hle _]. split; [lia | intros _; lia].
    + split; [simpl; lia | done].
Qed.

Lemma observe_events w :
  (length (chan_events (grpc.observe w)) <= length (chan_events w))%nat /\
  (chan_state (grpc.observe w) <> chan_state w ->
   (length (chan_events (grpc.observe w)) < length (chan_events w))%nat).
Proof.
  unfold grpc.observe.
  pose proof (catch_up_length (now w + tick w) (chan_state w) (chan_events w)) as H.
  destruct (grpc.catch_up _ _ _) as [s evs]. exact H.
Qed.

Lemma observe_frame w :
  remote (grpc.observe w) = remote w /\ wire (grpc.observe w) = wire w.
Proof. unfold grpc.observe. by destruct (grpc.catch_up _ _ _). Qed.

(** With a deadline, a wait for a change of the state just read returns:
    true, and then a pending state change was used up, or false, and then
    the deadline has passed. *)
Lemma WaitForStateChange_run cc ctx d w :
  context.deadline ctx = Some d ->
  exists changed w',
    grpc.WaitForStateChange cc ctx (chan_state w) w = (Returned changed, w') /\
    remote w' = remote w /\ wire w' = wire w /\
    if changed then (length (chan_events w') < length (chan_events w))%nat
    else d <= now w'.
Proof.
  intros Hd. unfold grpc.WaitForStateChange. cbv zeta.
  destruct (observe_events w) as [Hle Hlt]. destruct (observe_frame w) as [Hr Hw].
  destruct (connectivity.State_eqb (chan_state (grpc.observe w)) (chan_state w)) eqn:E;
    cbn [negb].
  - pose proof (next_change_length ctx (chan_state w) (chan_events (grpc.observe w)))
      as Hlen.
    destruct (grpc.next_change ctx (chan_state w) (chan_events (grpc.observe w)))
      as [[[t s] rest]|].
    + specialize (Hlen t s rest eq_refl).
      exists true. eexists. split; [reflexivity|]. cbn. repeat split; [done..|lia].
    + rewrite Hd. exists false. eexists. split; [reflexivity|]. cbn.
      repeat split; [done..|lia].
  - apply State_eqb_neq in E.
    exists true, (grpc.observe w). repeat split; [done..|]. by apply Hlt.
Qed.

(** With a deadline the loop of [connect] always ends, handing over the
    channel and no error; the driver is not called.  It ends on a look that
    found the channel ready, or when the deadline has passed. *)
Lemma connect_loop_run fuel :
  forall conn ctx d w,
    context.deadline ctx = Some d ->
    (length (chan_events w) < fuel)%nat ->
    exists w',
      connect_loop fuel conn ctx w = (Returned (Some conn, None), w') /\
      remote w' = remote w /\ wire w' = wire w /\
      (chan_state w' = connectivity.Ready \/ d <= now w').
Proof.
  induction fuel as [|fuel IH]; intros conn ctx d w Hd Hfuel; [lia|].
  cbn [connect_loop]. rewrite bind_run. unfold grpc.GetState at 1. cbv beta iota.
  destruct (observe_events w) as [Hle1 _]. destruct (observe_frame w) as [Hr1 Hw1].
  set (w1 := grpc.observe w) in *.
  rewrite bind_run.
  destruct (WaitForStateChange_run conn ctx d w1 Hd) as (changed & w2 & -> & Hr2 & Hw2 & Hc).
  destruct changed; cbn [negb].
  - rewrite bind_run. unfold grpc.GetState at 1. cbv beta iota.
    destruct (observe_events w2) as [Hle3 _]. destruct (observe_frame w2) as [Hr3 Hw3].
    set (w3 := grpc.observe w2) in *.
    destruct (connectivity.State_eqb (chan_state w3) connectivity.Ready) eqn:Es.
    + rewrite bind_run.
      destruct (glog_V_Infof_run 3 "Connected" [] w3) as [l ->].
      eexists. split; [reflexivity|]. cbn [remote wire chan_state set_glog_out].
      apply State_eqb_eq in Es. repeat split; [congruence..|by left].
    + rewrite bind_run. unfold grpc.GetState at 1. cbv beta iota.
      destruct (observe_events w3) as [Hle4 _]. destruct (observe_frame w3) as [Hr4 Hw4].
      set (w4 := grpc.observe w3) in *.
      rewrite bind_run.
      destruct (glog_V_Infof_run 4 "Still trying, connection is %s"
                  [arg_state (chan_state w4)] w4) as [l ->].
      destruct (IH conn ctx d (set_glog_out (λ out, out ++ l) w4) Hd
                  ltac:(cbn [chan_events set_glog_out]; lia))
        as (w' & -> & Hr & Hw & Hend).
      cbn [remote wire set_glog_out] in Hr, Hw.
      exists w'. repeat split; [congruence..|done].
  - rewrite bind_run.
    destruct (glog_V_Infof_run 4 "Connection timed out" [] w2) as [l ->].
    eexists. split; [reflexivity|]. cbn [remote wire now set_glog_out].
    repeat split; [congruence..|by right].
Qed.

(** [connect] itself: when the dial succeeds it always returns the channel
    and no error, without calling the driver; it returns on a look that
    found the channel ready, or when the timeout has passed. *)
Lemma connect_run address timeout w :
  dial_err w = None ->
  exists w',
    connect address timeout w = (Returned (Some (channel_of address), None), w') /\
    remote w' = remote w /\ wire w' = wire w /\
    (chan_state w' = connectivity.Ready \/ now w + timeout <= now w').
Proof.
  intros Hdial. unfold connect. rewrite bind_run.
  destruct (glog_V_Infof_run 2 "Connecting to %s" [arg_string address] w) as [l ->].
  rewrite bind_run. unfold grpc.Dial. rewrite bind_run. unfold gets at 1.
  cbn [dial_err set_glog_out]. rewrite Hdial, ret_run. cbv beta iota.
  rewrite bind_run. cbn [deref]. rewrite ret_run. cbv beta iota.
  rewrite bind_run. unfold context_WithTimeout. rewrite bind_run. unfold gets at 1.
  rewrite ret_run. cbv beta iota. rewrite bind_run. unfold gets at 1. cbv beta iota.
  cbn [context.deadline context.Background now].
  destruct (connect_loop_run
              (connect_fuel (set_glog_out (λ out, out ++ l) w))
              (channel_of address)
              (context.mkContext (Some (now w + timeout)))
              (now w + timeout)
              (set_glog_out (λ out, out ++ l) w) eq_refl
              ltac:(unfold connect_fuel; lia))
    as (w' & Hrun & Hremote & Hwire & Hend).
  exists w'. split; [exact Hrun|]. done.
Qed.

Lemma connect_dial_refused address timeout w e :
  dial_err w = Some e ->
  exists w', connect address timeout w = (Returned (None, Some e), w').
Proof.
  intros Hdial. unfold connect. rewrite bind_run.
  destruct (glog_V_Infof_run 2 "Connecting to %s" [arg_string address] w) as [l ->].
  rewrite bind_run. unfold grpc.Dial. rewrite bind_run. unfold gets at 1.
  cbn [dial_err set_glog_out]. rewrite Hdial, ret_run. cbv beta iota.
  by eexists.
Qed.

(** C8, as the code has it.  When the dial succeeds, [connect] hands over
    a channel to the address it was given.  For an address that begins with
    a slash the channel has the custom dialer, which dials the address as a
    unix socket; for every other address, a relative path included, the
    channel has no custom dialer: dialing is left to gRPC's default
    dialer. *)
Theorem connect_dialer address timeout w :
  dial_err w = None ->
  exists conn w',
    connect address timeout w = (Returned (Some conn, None), w') /\
    grpc.target conn = address /\
    (begins_with_slash address ->
     exists f, grpc.dialer (grpc.dopts conn) = Some f /\
               forall addr t, f addr t = grpc.mkDialTimeout "unix" addr t) /\
    (¬ begins_with_slash address -> grpc.dialer (grpc.dopts conn) = None).
Proof.
  intros Hdial. destruct (connect_run address timeout w Hdial) as (w' & Hrun & _).
  exists (channel_of address), w'. split; [exact Hrun|]. split; [done|].
  unfold channel_of, dialOptions. cbn [grpc.dopts].
  destruct (HasPrefix address "/") eqn:E.
  - split.
    + intros _. exists unixDialer. split; [reflexivity | done].
    + intros Hn. apply HasPrefix_slash in E. done.
  - split.
    + intros Hp. apply HasPrefix_slash in Hp. congruence.
    + intros _. reflexivity.
Qed.

Lemma connect_dialer_witness :
  exists conn w',
    connect sample_address (10 * time.Second)
      (sample_world (failing_driver Unavailable) connectivity.Idle
         [(1, connectivity.Connecting); (2, connectivity.Ready)])
    = (Returned (Some conn, None), w') /\
    grpc.target conn = sample_address /\
    (begins_with_slash sample_address ->
     exists f, grpc.dialer (grpc.dopts conn) = Some f /\
               forall addr t, f addr t = grpc.mkDialTimeout "unix" addr t) /\
    (¬ begins_with_slash sample_address -> grpc.dialer (grpc.dopts conn) = None).
Proof.
  exact (connect_dialer sample_address (10 * time.Second)
           (sample_world (failing_driver Unavailable) connectivity.Idle
              [(1, connectivity.Connecting); (2, connectivity.Ready)])
           eq_refl).
Defined.

(** C8 as stated fails: ["./csi.sock"] denotes a local filesystem path, yet
    [connect] gives its channel no local dialer; it is dialled as a host and
    port would be, by gRPC's default dialer. *)
Lemma connect_relative_path_default_dialer :
  denotes_local_path "./csi.sock" /\
  exists conn w',
    connect "./csi.sock" (10 * time.Second)
      (sample_world (failing_driver Unavailable) connectivity.Idle [])
    = (Returned (Some conn, None), w') /\
    grpc.dialer (grpc.dopts conn) = None.
Proof.
  split.
  - exists "csi.sock". right. left. reflexivity.
  - do 2 eexists. split; [vm_compute; reflexivity | reflexivity].
Qed.

Example connect_host_port_has_no_dialer :
  grpc.dialer (grpc.dopts (channel_of "127.0.0.1:10000")) = None /\
  grpc.unaryInt (grpc.dopts (channel_of "127.0.0.1:10000")) = Some grpc.interceptor_logGRPC.
Proof. split; reflexivity. Qed.

(** The two ways the wait of [connect] ends, in a world where a look at the
    state takes no time and the channel is not ready at the start: at the
    state change that makes it ready, or at the deadline. *)
Example connect_returns_when_ready :
  exists w',
    connect sample_address (10 * time.Second)
      (sample_world (failing_driver Unavailable) connectivity.Idle
         [(1, connectivity.Connecting); (2, connectivity.Ready)])
    = (Returned (Some (channel_of sample_address), None), w') /\
    chan_state w' = connectivity.Ready /\ now w' = 2.
Proof. eexists. split; [vm_compute; reflexivity|]. split; reflexivity. Qed.

Example connect_returns_at_deadline :
  exists w',
    connect sample_address (1 * time.Second)
      (sample_world (failing_driver Unavailable) connectivity.Idle
         [(1, connectivity.Connecting); (5, connectivity.TransientFailure);
          (2000000000, connectivity.Ready)])
    = (Returned (Some (channel_of sample_address), None), w') /\
    chan_state w' = connectivity.TransientFailure /\ now w' = 1 * time.Second.
Proof. eexists. split; [vm_compute; reflexivity|]. split; reflexivity. Qed.

(** C6, at a channel that is already ready when the wait starts (the
    background dial won the race against the first [GetState]).  [connect]
    waits for a state change away from ready: with none to come it returns
    the ready channel only when the ten seconds of the timeout are over, and
    logs that the connection timed out. *)
Theorem connect_ready_channel_waits :
  exists w',
    connect sample_address (10 * time.Second)
      (sample_world (failing_driver Unavailable) connectivity.Ready [])
    = (Returned (Some (channel_of sample_address), None), w') /\
    chan_state w' = connectivity.Ready /\
    now w' = 10 * time.Second /\
    last (glog_out w') = Some (glog.mkLine 4 "Connection timed out" []).
Proof. eexists. split; [vm_compute; reflexivity|]. repeat split. Qed.

(** And when the ready channel drops before the deadline, [connect] returns
    it at the deadline, not ready. *)
Example connect_ready_channel_dropped :
  exists w',
    connect sample_address (10 * time.Second)
      (sample_world (failing_driver Unavailable) connectivity.Ready
         [(3 * time.Second, connectivity.TransientFailure)])
    = (Returned (Some (channel_of sample_address), None), w') /\
    chan_state w' = connectivity.TransientFailure /\
    now w' = 10 * time.Second.
Proof. eexists. split; [vm_compute; reflexivity|]. split; reflexivity. Qed.

(** The same loss without the channel being ready at the start.  Each look
    takes two nanoseconds; the channel starts to connect at 5 and is ready at
    8, between the look that tests for ready and the look that is logged.
    [connect] logs that it is still trying on a ready connection, then
    waits for the ready channel to change, and returns it at the
    deadline. *)
Example connect_misses_ready_between_looks :
  exists w',
    connect sample_address (10 * time.Second)
      (mkWorld 5 [] 0 2 None connectivity.Idle
         [(5, connectivity.Connecting); (8, connectivity.Ready)]
         (failing_driver Unavailable) [])
    = (Returned (Some (channel_of sample_address), None), w') /\
    chan_state w' = connectivity.Ready /\
    now w' = 10 * time.Second /\
    glog_out w'
    = [ glog.mkLine 2 "Connecting to %s" [arg_string sample_address];
        glog.mkLine 4 "Still trying, connection is %s" [arg_state connectivity.Ready];
        glog.mkLine 4 "Connection timed out" [] ].
Proof. eexists. split; [vm_compute; reflexivity|]. repeat split. Qed.

(** ** The scenarios of the specification *)

Example supports_create_not_list :
  (SupportsControllerCreateSnapshot sample_conn sample_ctx
     (sample_world (sample_driver "csi.example.com" None []) connectivity.Ready [])).1
  = Returned (true, None) /\
  (SupportsControllerListSnapshots sample_conn sample_ctx
     (sample_world (sample_driver "csi.example.com" None []) connectivity.Ready [])).1
  = Returned (false, None).
Proof. split; vm_compute; reflexivity. Qed.

Example CreateSnapshot_scenario :
  (CreateSnapshot sample_conn sample_ctx "snap-1"
     (Some (volume_of (Some (source_of "vol-abc")))) ∅ ∅
     (sample_world (sample_driver "csi.example.com" (Some (sample_snapshot "snap-xyz")) [])
        connectivity.Ready [])).1
  = Returned ("csi.example.com", "snap-xyz", 1540000000000000500, 1024, true, None).
Proof. vm_compute. reflexivity. Qed.

Example GetSnapshotStatus_first_of_two :
  (GetSnapshotStatus sample_conn sample_ctx "snap-xyz"
     (sample_world
        (sample_driver "csi.example.com" None
           [ Some (csi.mkListSnapshotsResponse_Entry (Some (sample_snapshot "snap-xyz")));
             None ])
        connectivity.Ready [])).1
  = Returned (true, 1540000000000000500, 1024, None).
Proof. vm_compute. reflexivity. Qed.

Example first_call_fails_on_unreachable_driver :
  (GetDriverName sample_conn sample_ctx
     (sample_world (failing_driver Unavailable) connectivity.TransientFailure [])).1
  = Returned ("", Some Unavailable).
Proof. vm_compute. reflexivity. Qed.

(** * Further properties of the package *)

(** ** Probe and DeleteSnapshot *)

Lemma Probe_stub_run c ctx req w :
  exists lines,
    identityClient_Probe c ctx req w
    = (Returned (answer (drv_Probe (remote w) ctx (wire w) req)),
       sent "/csi.v1.Identity/Probe" (csi.MProbeRequest req) lines w).
Proof. stub_run. Qed.

Lemma DeleteSnapshot_stub_run c ctx req w :
  exists lines,
    controllerClient_DeleteSnapshot c ctx req w
    = (Returned (answer (drv_DeleteSnapshot (remote w) ctx (wire w) req)),
       sent "/csi.v1.Controller/DeleteSnapshot" (csi.MDeleteSnapshotRequest req) lines w).
Proof. stub_run. Qed.

Lemma Probe_run c ctx w :
  exists lines,
    Probe c ctx w
    = (Returned (drv_Probe (remote w) ctx (wire w) csi.mkProbeRequest).2,
       sent "/csi.v1.Identity/Probe" (csi.MProbeRequest csi.mkProbeRequest) lines w).
Proof.
  unfold Probe. rewrite bind_run.
  destruct (Probe_stub_run (NewIdentityClient (conn c)) ctx csi.mkProbeRequest w)
    as [lines ->].
  exists lines. destruct (drv_Probe _ _ _ _) as [rsp [e|]]; reflexivity.
Qed.

Lemma DeleteSnapshot_run c ctx snapshotID credentials w :
  exists lines,
    DeleteSnapshot c ctx snapshotID credentials w
    = (Returned (drv_DeleteSnapshot (remote w) ctx (wire w)
                   (csi.mkDeleteSnapshotRequest snapshotID credentials)).2,
       sent "/csi.v1.Controller/DeleteSnapshot"
            (csi.MDeleteSnapshotRequest (csi.mkDeleteSnapshotRequest snapshotID credentials))
            lines w).
Proof.
  unfold DeleteSnapshot. rewrite bind_run.
  destruct (DeleteSnapshot_stub_run (NewControllerClient (conn c)) ctx
              (csi.mkDeleteSnapshotRequest snapshotID credentials) w) as [lines ->].
  exists lines. destruct (drv_DeleteSnapshot _ _ _ _) as [rsp [e|]]; reflexivity.
Qed.

Lemma issued_one method req lines w :
  issued w (sent method req lines w) = [mkCall method req].
Proof. by apply issued_app. Qed.

(** X2. [Probe] sends one probe request and returns the error of that call
    as it is, nil when the call succeeds.  The response is not looked at: a
    driver that answers the probe with ready = false, or with no ready value,
    is reported healthy. *)
Theorem Probe_returns_call_error c ctx w rsp err :
  drv_Probe (remote w) ctx (wire w) csi.mkProbeRequest = (rsp, err) ->
  exists w', Probe c ctx w = (Returned err, w') /\ issued w w' = [probe_call].
Proof.
  intros Hdrv. destruct (Probe_run c ctx w) as [lines ->].
  rewrite Hdrv. eexists. split; [reflexivity|]. apply issued_one.
Qed.

Lemma Probe_returns_call_error_witness :
  exists w',
    Probe sample_conn sample_ctx
      (sample_world (probe_driver (Some false)) connectivity.Ready [])
    = (Returned None, w') /\
    issued (sample_world (probe_driver (Some false)) connectivity.Ready []) w'
    = [probe_call].
Proof.
  exact (Probe_returns_call_error sample_conn sample_ctx
           (sample_world (probe_driver (Some false)) connectivity.Ready [])
           (csi.mkProbeResponse (Some false)) None eq_refl).
Defined.

(** X3. [DeleteSnapshot] sends one delete request that carries the snapshot
    id and the credentials it was given, unchanged, and returns the error of
    that call as it is, nil when the call succeeds. *)
Theorem DeleteSnapshot_forwards c ctx snapshotID credentials w rsp err :
  drv_DeleteSnapshot (remote w) ctx (wire w)
    (csi.mkDeleteSnapshotRequest snapshotID credentials) = (rsp, err) ->
  exists w',
    DeleteSnapshot c ctx snapshotID credentials w = (Returned err, w') /\
    issued w w' = [delete_call (csi.mkDeleteSnapshotRequest snapshotID credentials)].
Proof.
  intros Hdrv. destruct (DeleteSnapshot_run c ctx snapshotID credentials w) as [lines ->].
  rewrite Hdrv. eexists. split; [reflexivity|]. apply issued_one.
Qed.

Lemma DeleteSnapshot_forwards_witness :
  exists w',
    DeleteSnapshot sample_conn sample_ctx "snap-xyz" {["user" := "admin"]}
      (sample_world (failing_driver Unavailable) connectivity.Ready [])
    = (Returned (Some Unavailable), w') /\
    issued (sample_world (failing_driver Unavailable) connectivity.Ready []) w'
    = [delete_call (csi.mkDeleteSnapshotRequest "snap-xyz" {["user" := "admin"]})].
Proof.
  exact (DeleteSnapshot_forwards sample_conn sample_ctx "snap-xyz" {["user" := "admin"]}
           (sample_world (failing_driver Unavailable) connectivity.Ready [])
           csi.new_DeleteSnapshotResponse (Some Unavailable) eq_refl).
Defined.

(** ** One call per operation *)

(** X4. However it ends, with a result, an error or a panic, each operation
    other than [CreateSnapshot] puts exactly one call on the wire: the
    plugin-info request for [GetDriverName], the capabilities request for
    each capability query, and for [GetSnapshotStatus] a list request whose
    only filter is the snapshot id it was given. *)
Theorem one_call_per_operation c ctx w :
  issued w (GetDriverName c ctx w).2 = [fetch_call] /\
  issued w (SupportsControllerCreateSnapshot c ctx w).2 = [caps_call] /\
  issued w (SupportsControllerListSnapshots c ctx w).2 = [caps_call] /\
  (forall snapshotID,
      issued w (GetSnapshotStatus c ctx snapshotID w).2
      = [mkCall "/csi.v1.Controller/ListSnapshots"
           (csi.MListSnapshotsRequest (csi.mkListSnapshotsRequest 0 "" "" snapshotID))]).
Proof.
  split; [|split; [|split]].
  - destruct (GetDriverName_run c ctx w) as (l & r & -> & _). apply issued_one.
  - destruct (SupportsControllerCreateSnapshot_run c ctx w) as (l & r & -> & _).
    apply issued_one.
  - destruct (SupportsControllerListSnapshots_run c ctx w) as (l & r & -> & _).
    apply issued_one.
  - intros snapshotID.
    destruct (GetSnapshotStatus_run c ctx snapshotID w) as (o & l & -> & _).
    apply issued_one.
Qed.

(** ** Errors of the transport *)

(** X5. An error of a remote call is returned to the caller as it is, not
    wrapped and not replaced: by [GetDriverName], by both capability queries
    and by [GetSnapshotStatus] for their one call, and by [CreateSnapshot]
    for the driver-name fetch as well as for the create request. *)
Theorem call_errors_returned_verbatim c ctx w e :
  (forall rsp,
      drv_GetPluginInfo (remote w) ctx (wire w) csi.mkGetPluginInfoRequest = (rsp, Some e) ->
      (GetDriverName c ctx w).1 = Returned ("", Some e) /\
      forall snapshotName volume source parameters credentials,
        v1.CSI (v1.Spec volume) = Some source ->
        (CreateSnapshot c ctx snapshotName (Some volume) parameters credentials w).1
        = Returned ("", "", 0, 0, false, Some e)) /\
  (forall rsp,
      drv_ControllerGetCapabilities (remote w) ctx (wire w)
        csi.mkControllerGetCapabilitiesRequest = (rsp, Some e) ->
      (SupportsControllerCreateSnapshot c ctx w).1 = Returned (false, Some e) /\
      (SupportsControllerListSnapshots c ctx w).1 = Returned (false, Some e)) /\
  (forall snapshotID rsp,
      drv_ListSnapshots (remote w) ctx (wire w) (list_request snapshotID) = (rsp, Some e) ->
      (GetSnapshotStatus c ctx snapshotID w).1 = Returned (false, 0, 0, Some e)) /\
  (forall snapshotName volume source parameters credentials info rsp,
      v1.CSI (v1.Spec volume) = Some source ->
      drv_GetPluginInfo (remote w) ctx (wire w) csi.mkGetPluginInfoRequest = (info, None) ->
      csi.PluginInfo_Name info <> "" ->
      drv_CreateSnapshot (remote w) ctx (wire w ++ [fetch_call])
        (csi.mkCreateSnapshotRequest (v1.VolumeHandle source) snapshotName
           credentials parameters) = (rsp, Some e) ->
      (CreateSnapshot c ctx snapshotName (Some volume) parameters credentials w).1
      = Returned ("", "", 0, 0, false, Some e)).
Proof.
  split; [|split; [|split]].
  - intros rsp Hdrv. split.
    + destruct (GetDriverName_run c ctx w) as (l & r & -> & Hr).
      rewrite Hdrv in Hr. by subst r.
    + intros snapshotName volume source parameters credentials Hsrc.
      destruct (CreateSnapshot_run c ctx snapshotName volume parameters credentials w)
        as (o & w' & calls & -> & _ & Hcase).
      rewrite Hsrc, Hdrv in Hcase. by destruct Hcase as [-> _].
  - intros rsp Hdrv. split.
    + destruct (SupportsControllerCreateSnapshot_run c ctx w) as (l & r & -> & Hr).
      rewrite Hdrv in Hr. by subst r.
    + destruct (SupportsControllerListSnapshots_run c ctx w) as (l & r & -> & Hr).
      rewrite Hdrv in Hr. by subst r.
  - intros snapshotID rsp Hdrv.
    destruct (GetSnapshotStatus_run c ctx snapshotID w) as (o & l & -> & Hcase).
    rewrite Hdrv in Hcase. by subst o.
  - intros snapshotName volume source parameters credentials info rsp Hsrc Hinfo Hname Hdrv.
    destruct (CreateSnapshot_run c ctx snapshotName volume parameters credentials w)
      as (o & w' & calls & -> & _ & Hcase).
    rewrite Hsrc, Hinfo in Hcase.
    destruct (String.eqb_spec (csi.PluginInfo_Name info) ""); [done|].
    cbv zeta in Hcase. destruct Hcase as [_ Hcase]. rewrite Hdrv in Hcase. by subst o.
Qed.

Lemma call_errors_returned_verbatim_witness :
  (GetDriverName sample_conn sample_ctx
     (sample_world (failing_driver Unavailable) connectivity.Ready [])).1
  = Returned ("", Some Unavailable).
Proof.
  exact (proj1 (proj1 (call_errors_returned_verbatim sample_conn sample_ctx
                         (sample_world (failing_driver Unavailable) connectivity.Ready [])
                         Unavailable)
                  csi.new_GetPluginInfoResponse eq_refl)).
Defined.

(** ** The paths of CreateSnapshot *)

(** X6. The success of [CreateSnapshot].  For a volume with a CSI source,
    a driver that names itself with a non-empty name and answers the create
    request with a snapshot whose creation time is well-formed: the create
    request carries the volume handle of the source, the snapshot name, the
    parameters and the credentials, each in its own field; and the result is
    the driver name, then the snapshot's id, its creation time in
    nanoseconds, its size and its ready flag, with no error. *)
Theorem CreateSnapshot_success c ctx snapshotName volume source parameters credentials
    w info rsp snap ts :
  v1.CSI (v1.Spec volume) = Some source ->
  drv_GetPluginInfo (remote w) ctx (wire w) csi.mkGetPluginInfoRequest = (info, None) ->
  csi.PluginInfo_Name info <> "" ->
  drv_CreateSnapshot (remote w) ctx (wire w ++ [fetch_call])
    {| csi.CreateSnapshot_SourceVolumeId := v1.VolumeHandle source;
       csi.CreateSnapshot_Name := snapshotName;
       csi.CreateSnapshot_Parameters := parameters;
       csi.CreateSnapshot_Secrets := credentials |} = (rsp, None) ->
  csi.CreateSnapshot_Snapshot rsp = Some snap ->
  csi.Snapshot_CreationTime snap = Some ts -> ¬ malformed (Some ts) ->
  exists w',
    CreateSnapshot c ctx snapshotName (Some volume) parameters credentials w
    = (Returned (csi.PluginInfo_Name info, csi.Snapshot_SnapshotId snap,
                 wrap64 (exact_nanos ts), csi.Snapshot_SizeBytes snap,
                 csi.Snapshot_ReadyToUse snap, None), w') /\
    issued w w'
    = [fetch_call;
       create_call {| csi.CreateSnapshot_SourceVolumeId := v1.VolumeHandle source;
                      csi.CreateSnapshot_Name := snapshotName;
                      csi.CreateSnapshot_Parameters := parameters;
                      csi.CreateSnapshot_Secrets := credentials |}].
Proof.
  intros Hsrc Hinfo Hname Hdrv Hsnap Htime Hwf.
  destruct (CreateSnapshot_run c ctx snapshotName volume parameters credentials w)
    as (o & w' & calls & -> & Hwire & Hcase).
  rewrite Hsrc, Hinfo in Hcase.
  destruct (String.eqb_spec (csi.PluginInfo_Name info) ""); [done|].
  cbv zeta in Hcase. destruct Hcase as [-> Hcase].
  rewrite Hdrv, Hsnap, Htime in Hcase. destruct ts as [s ns].
  rewrite timestampToUnixTime_wellformed in Hcase by done. subst o.
  exists w'. split; [reflexivity|]. by apply issued_app.
Qed.

Lemma CreateSnapshot_success_witness :
  exists w',
    CreateSnapshot sample_conn sample_ctx "snap-1"
      (Some (volume_of (Some (source_of "vol-abc"))))
      {["type" := "fast"]} {["user" := "admin"]}
      (sample_world (sample_driver "csi.example.com" (Some (sample_snapshot "snap-xyz")) [])
         connectivity.Ready [])
    = (Returned ("csi.example.com", "snap-xyz", wrap64 (exact_nanos sample_time), 1024,
                 true, None), w') /\
    issued
      (sample_world (sample_driver "csi.example.com" (Some (sample_snapshot "snap-xyz")) [])
         connectivity.Ready []) w'
    = [fetch_call;
       create_call {| csi.CreateSnapshot_SourceVolumeId := "vol-abc";
                      csi.CreateSnapshot_Name := "snap-1";
                      csi.CreateSnapshot_Parameters := {["type" := "fast"]};
                      csi.CreateSnapshot_Secrets := {["user" := "admin"]} |}].
Proof.
  refine (CreateSnapshot_success sample_conn sample_ctx "snap-1"
            (volume_of (Some (source_of "vol-abc"))) (source_of "vol-abc")
            {["type" := "fast"]} {["user" := "admin"]}
            (sample_world
               (sample_driver "csi.example.com" (Some (sample_snapshot "snap-xyz")) [])
               connectivity.Ready [])
            (csi.mkGetPluginInfoResponse "csi.example.com" "1.0" ∅)
            (csi.mkCreateSnapshotResponse (Some (sample_snapshot "snap-xyz")))
            (sample_snapshot "snap-xyz") sample_time
            eq_refl eq_refl _ eq_refl eq_refl eq_refl _).
  - simpl. discriminate.
  - simpl. unfold ptypes.minValidSeconds, ptypes.maxValidSeconds. lia.
Defined.

(** X7. [CreateSnapshot] called with a nil volume panics on the nil
    dereference of [volume.Spec], before any remote call. *)
Theorem CreateSnapshot_nil_volume_panics c ctx snapshotName parameters credentials w :
  exists w',
    CreateSnapshot c ctx snapshotName None parameters credentials w
    = (Panicked nil_dereference, w') /\ issued w w' = [].
Proof.
  destruct (CreateSnapshot_nil_volume c ctx snapshotName parameters credentials w)
    as (w' & Hrun & Hwire).
  exists w'. split; [done|]. apply issued_app. by rewrite app_nil_r.
Qed.

(** X8. A create response that arrives without error and without a
    snapshot is not answered with an error: [CreateSnapshot] panics on the
    nil dereference of [rsp.Snapshot], after both remote calls went out. *)
Theorem CreateSnapshot_nil_snapshot_panic c ctx snapshotName volume source parameters
    credentials w info rsp :
  v1.CSI (v1.Spec volume) = Some source ->
  drv_GetPluginInfo (remote w) ctx (wire w) csi.mkGetPluginInfoRequest = (info, None) ->
  csi.PluginInfo_Name info <> "" ->
  drv_CreateSnapshot (remote w) ctx (wire w ++ [fetch_call])
    (csi.mkCreateSnapshotRequest (v1.VolumeHandle source) snapshotName
       credentials parameters) = (rsp, None) ->
  csi.CreateSnapshot_Snapshot rsp = None ->
  exists w' req,
    CreateSnapshot c ctx snapshotName (Some volume) parameters credentials w
    = (Panicked nil_dereference, w') /\
    issued w w' = [fetch_call; create_call req].
Proof.
  intros Hsrc Hinfo Hname Hdrv Hsnap.
  destruct (CreateSnapshot_run c ctx snapshotName volume parameters credentials w)
    as (o & w' & calls & -> & Hwire & Hcase).
  rewrite Hsrc, Hinfo in Hcase.
  destruct (String.eqb_spec (csi.PluginInfo_Name info) ""); [done|].
  cbv zeta in Hcase. destruct Hcase as [-> Hcase].
  rewrite Hdrv, Hsnap in Hcase. subst o.
  exists w'. eexists. split; [reflexivity|]. by apply issued_app.
Qed.

Lemma CreateSnapshot_nil_snapshot_panic_witness :
  exists w' req,
    CreateSnapshot sample_conn sample_ctx "snap-1"
      (Some (volume_of (Some (source_of "vol-abc")))) ∅ ∅
      (sample_world (sample_driver "csi.example.com" None []) connectivity.Ready [])
    = (Panicked nil_dereference, w') /\
    issued (sample_world (sample_driver "csi.example.com" None []) connectivity.Ready []) w'
    = [fetch_call; create_call req].
Proof.
  refine (CreateSnapshot_nil_snapshot_panic sample_conn sample_ctx "snap-1"
            (volume_of (Some (source_of "vol-abc"))) (source_of "vol-abc") ∅ ∅
            (sample_world (sample_driver "csi.example.com" None []) connectivity.Ready [])
            (csi.mkGetPluginInfoResponse "csi.example.com" "1.0" ∅)
            (csi.mkCreateSnapshotResponse None)
            eq_refl eq_refl _ eq_refl eq_refl).
  simpl. discriminate.
Defined.

(** ** The paths of GetSnapshotStatus *)

(** X9. A list response that arrives without error and whose first entry
    is nil, or holds no snapshot, is not answered with an error:
    [GetSnapshotStatus] panics on the nil dereference. *)
Theorem GetSnapshotStatus_nil_entry_panic c ctx snapshotID w rsp first rest :
  drv_ListSnapshots (remote w) ctx (wire w) (list_request snapshotID) = (rsp, None) ->
  csi.Entries rsp = first :: rest ->
  first = None \/ first = Some (csi.mkListSnapshotsResponse_Entry None) ->
  (GetSnapshotStatus c ctx snapshotID w).1 = Panicked nil_dereference.
Proof.
  intros Hdrv Hentries Hfirst.
  destruct (GetSnapshotStatus_run c ctx snapshotID w) as (o & l & -> & Hcase).
  rewrite Hdrv, Hentries in Hcase. by destruct Hfirst as [-> | ->].
Qed.

Lemma GetSnapshotStatus_nil_entry_panic_witness :
  (GetSnapshotStatus sample_conn sample_ctx "snap-xyz"
     (sample_world (sample_driver "csi.example.com" None [None]) connectivity.Ready [])).1
  = Panicked nil_dereference.
Proof.
  exact (GetSnapshotStatus_nil_entry_panic sample_conn sample_ctx "snap-xyz"
           (sample_world (sample_driver "csi.example.com" None [None]) connectivity.Ready [])
           (csi.mkListSnapshotsResponse [None] "") None [] eq_refl eq_refl
           (or_introl eq_refl)).
Defined.

(** ** Creation times the decoder rejects *)

(** X10. A snapshot whose creation time is missing or malformed is
    answered with the error of the timestamp validation and zero values, by
    [CreateSnapshot] (after both remote calls) and by [GetSnapshotStatus]
    (for the first entry).  A missing creation time gives the error
    "timestamp: nil Timestamp". *)
Theorem rejected_creation_time c ctx w snap :
  malformed (csi.Snapshot_CreationTime snap) ->
  exists e,
    ptypes.validateTimestamp (csi.Snapshot_CreationTime snap) = Some e /\
    (csi.Snapshot_CreationTime snap = None -> e = errors_New "timestamp: nil Timestamp") /\
    (forall snapshotName volume source parameters credentials info rsp,
        v1.CSI (v1.Spec volume) = Some source ->
        drv_GetPluginInfo (remote w) ctx (wire w) csi.mkGetPluginInfoRequest = (info, None) ->
        csi.PluginInfo_Name info <> "" ->
        drv_CreateSnapshot (remote w) ctx (wire w ++ [fetch_call])
          (csi.mkCreateSnapshotRequest (v1.VolumeHandle source) snapshotName
             credentials parameters) = (rsp, None) ->
        csi.CreateSnapshot_Snapshot rsp = Some snap ->
        (CreateSnapshot c ctx snapshotName (Some volume) parameters credentials w).1
        = Returned ("", "", 0, 0, false, Some e)) /\
    (forall snapshotID rsp rest,
        drv_ListSnapshots (remote w) ctx (wire w) (list_request snapshotID) = (rsp, None) ->
        csi.Entries rsp = Some (csi.mkListSnapshotsResponse_Entry (Some snap)) :: rest ->
        (GetSnapshotStatus c ctx snapshotID w).1 = Returned (false, 0, 0, Some e)).
Proof.
  intros Hbad. destruct (validateTimestamp_Some _ Hbad) as [e He]. exists e.
  assert (Ht : timestampToUnixTime (csi.Snapshot_CreationTime snap) = (-1, Some e)).
  { unfold timestampToUnixTime, ptypes.Timestamp. by rewrite He. }
  split; [done|]. split; [|split].
  - intros Hnil. rewrite Hnil in He. simpl in He. congruence.
  - intros snapshotName volume source parameters credentials info rsp
           Hsrc Hinfo Hname Hdrv Hsnap.
    destruct (CreateSnapshot_run c ctx snapshotName volume parameters credentials w)
      as (o & w' & calls & -> & _ & Hcase).
    rewrite Hsrc, Hinfo in Hcase.
    destruct (String.eqb_spec (csi.PluginInfo_Name info) ""); [done|].
    cbv zeta in Hcase. destruct Hcase as [_ Hcase].
    rewrite Hdrv, Hsnap, Ht in Hcase. by subst o.
  - intros snapshotID rsp rest Hdrv Hentries.
    destruct (GetSnapshotStatus_run c ctx snapshotID w) as (o & l & -> & Hcase).
    rewrite Hdrv, Hentries in Hcase. cbn [csi.Entry_Snapshot] in Hcase.
    rewrite Ht in Hcase. by subst o.
Qed.

Lemma rejected_creation_time_witness :
  exists e,
    ptypes.validateTimestamp None = Some e /\
    (GetSnapshotStatus sample_conn sample_ctx "snap-xyz"
       (sample_world
          (sample_driver "csi.example.com" None
             [Some (csi.mkListSnapshotsResponse_Entry
                      (Some (csi.mkSnapshot 1024 "snap-xyz" "vol-abc" None true)))])
          connectivity.Ready [])).1
    = Returned (false, 0, 0, Some e).
Proof.
  destruct (rejected_creation_time sample_conn sample_ctx
              (sample_world
                 (sample_driver "csi.example.com" None
                    [Some (csi.mkListSnapshotsResponse_Entry
                             (Some (csi.mkSnapshot 1024 "snap-xyz" "vol-abc" None true)))])
                 connectivity.Ready [])
              (csi.mkSnapshot 1024 "snap-xyz" "vol-abc" None true) I)
    as (e & He & _ & _ & Hstatus).
  exists e. split; [exact He|].
  exact (Hstatus "snap-xyz" _ [] eq_refl eq_refl).
Defined.

(** ** The range of timestampToUnixTime *)

Lemma wrap64_is_int64 z : is_int64 (wrap64 z).
Proof.
  unfold is_int64, int64_min, int64_max, wrap64.
  pose proof (Z.mod_pos_bound (z + 2 ^ 63) (2 ^ 64)). lia.
Qed.

(** X11. For a well-formed wire timestamp [timestampToUnixTime] returns no
    error, and its value is the count of nanoseconds the timestamp stands
    for exactly when that count fits an [int64] (the years 1678 to 2262).
    Outside that range the value is still returned without an error, and it
    differs from the count by a multiple of 2^64. *)
Theorem timestampToUnixTime_exact_iff_fits ts :
  ¬ malformed (Some ts) ->
  exists n,
    timestampToUnixTime (Some ts) = (n, None) /\
    (n = exact_nanos ts <-> is_int64 (exact_nanos ts)) /\
    exists k, n = exact_nanos ts + k * 2 ^ 64.
Proof.
  intros Hwf. destruct ts as [s ns].
  exists (wrap64 (exact_nanos (timestamp.mkTimestamp s ns))).
  split; [by apply timestampToUnixTime_wellformed|]. split.
  - split.
    + intros <-. apply wrap64_is_int64.
    + intros Hfit. by apply wrap64_id.
  - set (x := exact_nanos _). unfold wrap64.
    exists (- ((x + 2 ^ 63) `div` 2 ^ 64)).
    pose proof (Z.div_mod (x + 2 ^ 63) (2 ^ 64) ltac:(lia)). lia.
Qed.

Lemma timestampToUnixTime_exact_iff_fits_witness :
  exists n,
    timestampToUnixTime (Some (timestamp.mkTimestamp 9223372037 0)) = (n, None) /\
    (n = exact_nanos (timestamp.mkTimestamp 9223372037 0) <->
     is_int64 (exact_nanos (timestamp.mkTimestamp 9223372037 0))) /\
    exists k, n = exact_nanos (timestamp.mkTimestamp 9223372037 0) + k * 2 ^ 64.
Proof.
  apply (timestampToUnixTime_exact_iff_fits (timestamp.mkTimestamp 9223372037 0)).
  simpl. unfold ptypes.minValidSeconds, ptypes.maxValidSeconds. lia.
Defined.

(** X12. On well-formed timestamps whose count of nanoseconds fits an
    [int64], [timestampToUnixTime] keeps the order: an earlier timestamp
    gives a strictly smaller value, so different timestamps give different
    values. *)
Theorem timestampToUnixTime_keeps_order a b :
  ¬ malformed (Some a) -> ¬ malformed (Some b) ->
  is_int64 (exact_nanos a) -> is_int64 (exact_nanos b) ->
  earlier a b ->
  (timestampToUnixTime (Some a)).1 < (timestampToUnixTime (Some b)).1.
Proof.
  intros Ha Hb Hfa Hfb Hlt. destruct a as [sa na], b as [sb nb].
  rewrite !timestampToUnixTime_wellformed by done. cbn [fst].
  fold (exact_nanos (timestamp.mkTimestamp sa na)).
  fold (exact_nanos (timestamp.mkTimestamp sb nb)).
  rewrite !wrap64_id by done.
  unfold exact_nanos, earlier in *. simpl in *. lia.
Qed.

Lemma timestampToUnixTime_keeps_order_witness :
  (timestampToUnixTime (Some (timestamp.mkTimestamp 1540000000 999999999))).1
  < (timestampToUnixTime (Some (timestamp.mkTimestamp 1540000001 0))).1.
Proof.
  apply timestampToUnixTime_keeps_order.
  - simpl. unfold ptypes.minValidSeconds, ptypes.maxValidSeconds. lia.
  - simpl. unfold ptypes.minValidSeconds, ptypes.maxValidSeconds. lia.
  - unfold is_int64, int64_min, int64_max, exact_nanos. simpl. lia.
  - unfold is_int64, int64_min, int64_max, exact_nanos. simpl. lia.
  - left. simpl. lia.
Defined.

(** ** The capability list as a set *)

Lemma range_caps_Permutation want caps1 caps2 :
  Permutation caps1 caps2 -> range_caps want caps1 = range_caps want caps2.
Proof.
  intros Hperm.
  assert (Hiff : advertises want caps1 <-> advertises want caps2).
  { unfold advertises. split; intros (cap & rpc & Hin & H).
    - exists cap, rpc. split; [|done]. by eapply Permutation_in.
    - exists cap, rpc. split; [|done].
      eapply Permutation_in; [symmetry; exact Hperm | done]. }
  rewrite <- !range_caps_advertises in Hiff.
  destruct (range_caps want caps1), (range_caps want caps2); try done.
  - by destruct Hiff as [-> _].
  - by destruct Hiff as [_ ->].
Qed.

(** X13. The answer of a capability query does not depend on the order of
    the capability list: two capability responses that are permutations of
    one another give the same answer, for both queries. *)
Theorem supports_order_irrelevant c ctx w1 w2 rsp1 rsp2 :
  drv_ControllerGetCapabilities (remote w1) ctx (wire w1)
    csi.mkControllerGetCapabilitiesRequest = (rsp1, None) ->
  drv_ControllerGetCapabilities (remote w2) ctx (wire w2)
    csi.mkControllerGetCapabilitiesRequest = (rsp2, None) ->
  Permutation (csi.Capabilities rsp1) (csi.Capabilities rsp2) ->
  (SupportsControllerCreateSnapshot c ctx w1).1
  = (SupportsControllerCreateSnapshot c ctx w2).1 /\
  (SupportsControllerListSnapshots c ctx w1).1
  = (SupportsControllerListSnapshots c ctx w2).1.
Proof.
  intros H1 H2 Hperm. split.
  - destruct (SupportsControllerCreateSnapshot_run c ctx w1) as (l1 & r1 & -> & Hr1).
    destruct (SupportsControllerCreateSnapshot_run c ctx w2) as (l2 & r2 & -> & Hr2).
    rewrite H1 in Hr1. rewrite H2 in Hr2. subst r1 r2. cbn [fst].
    by rewrite (range_caps_Permutation _ _ _ Hperm).
  - destruct (SupportsControllerListSnapshots_run c ctx w1) as (l1 & r1 & -> & Hr1).
    destruct (SupportsControllerListSnapshots_run c ctx w2) as (l2 & r2 & -> & Hr2).
    rewrite H1 in Hr1. rewrite H2 in Hr2. subst r1 r2. cbn [fst].
    by rewrite (range_caps_Permutation _ _ _ Hperm).
Qed.

Lemma supports_order_irrelevant_witness :
  (SupportsControllerCreateSnapshot sample_conn sample_ctx
     (sample_world (caps_driver (λ _, sample_caps)) connectivity.Ready [])).1
  = (SupportsControllerCreateSnapshot sample_conn sample_ctx
       (sample_world (caps_driver (λ _, rev sample_caps)) connectivity.Ready [])).1.
Proof.
  exact (proj1 (supports_order_irrelevant sample_conn sample_ctx
                  (sample_world (caps_driver (λ _, sample_caps)) connectivity.Ready [])
                  (sample_world (caps_driver (λ _, rev sample_caps)) connectivity.Ready [])
                  (csi.mkControllerGetCapabilitiesResponse sample_caps)
                  (csi.mkControllerGetCapabilitiesResponse (rev sample_caps))
                  eq_refl eq_refl (Permutation_rev sample_caps))).
Defined.

(** X14. Capability answers are not cached.  A second query sends a second
    capabilities request, and its answer is the one the driver gives to that
    second request: the error if it fails, else the scan of the list it
    returns then. *)
Theorem supports_asks_each_time c ctx w :
  exists r1 w1 r2 w2,
    SupportsControllerCreateSnapshot c ctx w = (Returned r1, w1) /\
    SupportsControllerCreateSnapshot c ctx w1 = (Returned r2, w2) /\
    issued w w2 = [caps_call; caps_call] /\
    match drv_ControllerGetCapabilities (remote w) ctx (wire w ++ [caps_call])
            csi.mkControllerGetCapabilitiesRequest with
    | (_, Some e) => r2 = (false, Some e)
    | (rsp, None) =>
        r2 = (range_caps csi.ControllerServiceCapability_RPC_CREATE_DELETE_SNAPSHOT
                (csi.Capabilities rsp), None)
    end.
Proof.
  destruct (SupportsControllerCreateSnapshot_run c ctx w) as (l1 & r1 & Hrun1 & _).
  match type of Hrun1 with _ = (_, ?w1) =>
    destruct (SupportsControllerCreateSnapshot_run c ctx w1) as (l2 & r2 & Hrun2 & Hr2)
  end.
  do 4 eexists. split; [exact Hrun1|]. split; [exact Hrun2|]. split.
  - apply issued_app. cbn [wire sent set_wire set_glog_out].
    by rewrite <- app_assoc.
  - exact Hr2.
Qed.

Example supports_follows_the_driver :
  exists w1 w2,
    SupportsControllerCreateSnapshot sample_conn sample_ctx
      (sample_world (caps_driver (λ hist, match hist with [] => sample_caps | _ => [] end))
         connectivity.Ready [])
    = (Returned (true, None), w1) /\
    SupportsControllerCreateSnapshot sample_conn sample_ctx w1
    = (Returned (false, None), w2).
Proof. do 2 eexists. split; vm_compute; reflexivity. Qed.

(** ** The lines of the interceptor *)

Lemma glog_V_Infof_below n format args w :
  glog_v w < n -> glog_V_Infof n format args w = (Returned tt, w).
Proof.
  intros Hv. unfold glog_V_Infof, modify.
  assert ((n <=? glog_v w) = false) as -> by lia. reflexivity.
Qed.

Lemma glog_V_Infof_from n format args w :
  n <= glog_v w ->
  glog_V_Infof n format args w
  = (Returned tt, set_glog_out (λ out, out ++ [glog.mkLine n format args]) w).
Proof.
  intros Hv. unfold glog_V_Infof, modify.
  assert ((n <=? glog_v w) = true) as -> by lia. reflexivity.
Qed.

(** X15. Below verbosity 5 [logGRPC] over the transport is the transport:
    same result, same world, nothing logged.  From verbosity 5 on it adds
    exactly four lines to the log, in this order: the method, the request,
    the reply as the call left it, and the error of the call; request and
    reply are logged through [StripSecrets] only. *)
Theorem logGRPC_lines ctx method req reply cc opts w :
  (glog_v w < 5 ->
   logGRPC ctx method req reply cc grpc.invoke opts w
   = grpc.invoke ctx method req reply cc opts w) /\
  (5 <= glog_v w ->
   glog_out (logGRPC ctx method req reply cc grpc.invoke opts w).2
   = glog_out w ++
     [ glog.mkLine 5 "GRPC call: %s" [arg_string method];
       glog.mkLine 5 "GRPC request: %s" [StripSecrets req];
       glog.mkLine 5 "GRPC response: %s"
         [StripSecrets (grpc.serve (remote w) ctx (wire w) method req reply).1];
       glog.mkLine 5 "GRPC error: %v"
         [arg_error (grpc.serve (remote w) ctx (wire w) method req reply).2] ]).
Proof.
  split; intros Hv.
  - unfold logGRPC.
    rewrite bind_run, glog_V_Infof_below by done.
    rewrite bind_run, glog_V_Infof_below by done.
    rewrite bind_run. unfold grpc.invoke.
    destruct (grpc.serve _ _ _ _ _ _) as [reply' err].
    rewrite bind_run, glog_V_Infof_below by done.
    rewrite bind_run, glog_V_Infof_below by done.
    reflexivity.
  - unfold logGRPC.
    rewrite bind_run, glog_V_Infof_from by done.
    rewrite bind_run, glog_V_Infof_from by done.
    rewrite bind_run. unfold grpc.invoke.
    cbn [remote wire set_glog_out].
    destruct (grpc.serve _ _ _ _ _ _) as [reply' err].
    rewrite bind_run, glog_V_Infof_from by done.
    rewrite bind_run, glog_V_Infof_from by done.
    rewrite ret_run. cbn [snd fst glog_out set_glog_out set_wire].
    rewrite <- !app_assoc. reflexivity.
Qed.

Lemma logGRPC_lines_witness :
  logGRPC sample_ctx "/csi.v1.Identity/Probe" (csi.MProbeRequest csi.mkProbeRequest)
    (csi.MProbeResponse csi.new_ProbeResponse) (channel_of sample_address) grpc.invoke []
    (mkWorld 2 [] 0 0 None connectivity.Ready [] (failing_driver Unavailable) [])
  = grpc.invoke sample_ctx "/csi.v1.Identity/Probe" (csi.MProbeRequest csi.mkProbeRequest)
      (csi.MProbeResponse csi.new_ProbeResponse) (channel_of sample_address) []
      (mkWorld 2 [] 0 0 None connectivity.Ready [] (failing_driver Unavailable) []).
Proof.
  apply (proj1 (logGRPC_lines sample_ctx "/csi.v1.Identity/Probe"
                  (csi.MProbeRequest csi.mkProbeRequest)
                  (csi.MProbeResponse csi.new_ProbeResponse) (channel_of sample_address) []
                  (mkWorld 2 [] 0 0 None connectivity.Ready [] (failing_driver Unavailable) []))).
  simpl. lia.
Defined.

(** ** The channel connect makes *)

(** X16. [connect] does not give up before its timeout.  When the dial
    succeeds, whatever the channel does in the background and however long a
    look at its state takes, [connect] returns the channel with no error
    either on a look that found the channel ready, or not before the
    timeout has passed on the clock. *)
Theorem connect_not_before_deadline address timeout w :
  dial_err w = None ->
  exists w',
    connect address timeout w = (Returned (Some (channel_of address), None), w') /\
    (chan_state w' = connectivity.Ready \/ now w + timeout <= now w').
Proof.
  intros Hdial.
  destruct (connect_run address timeout w Hdial) as (w' & Hrun & _ & _ & Hend).
  exists w'. split; [exact Hrun | exact Hend].
Qed.

Lemma connect_not_before_deadline_witness :
  exists w',
    connect sample_address (10 * time.Second)
      (mkWorld 5 [] 0 2 None connectivity.Idle
         [(5, connectivity.Connecting); (6, connectivity.TransientFailure)]
         (failing_driver Unavailable) [])
    = (Returned (Some (channel_of sample_address), None), w') /\
    (chan_state w' = connectivity.Ready \/ 0 + 10 * time.Second <= now w').
Proof.
  exact (connect_not_before_deadline sample_address (10 * time.Second)
           (mkWorld 5 [] 0 2 None connectivity.Idle
              [(5, connectivity.Connecting); (6, connectivity.TransientFailure)]
              (failing_driver Unavailable) [])
           eq_refl).
Defined.

(** X18. Every channel [connect] makes, for a socket path as for any other
    address, is dialled insecure, with a back-off of at most one second
    between connection attempts, and with [logGRPC] as its unary
    interceptor: every call made on the channel goes through the
    interceptor. *)
Theorem connect_channel_options address timeout w :
  dial_err w = None ->
  exists conn w',
    connect address timeout w = (Returned (Some conn, None), w') /\
    grpc.insecure (grpc.dopts conn) = true /\
    grpc.backoffMaxDelay (grpc.dopts conn) = Some time.Second /\
    grpc.unaryInt (grpc.dopts conn) = Some grpc.interceptor_logGRPC /\
    forall ctx method req reply opts w0,
      ClientConn_Invoke conn ctx method req reply opts w0
      = logGRPC ctx method req reply conn grpc.invoke opts w0.
Proof.
  intros Hdial. destruct (connect_run address timeout w Hdial) as (w' & Hrun & _).
  exists (channel_of address), w'. split; [exact Hrun|].
  unfold ClientConn_Invoke, channel_of, dialOptions. cbn [grpc.dopts].
  destruct (HasPrefix address "/"); repeat split.
Qed.

Lemma connect_channel_options_witness :
  exists conn w',
    connect "127.0.0.1:10000" time.Second
      (sample_world (failing_driver Unavailable) connectivity.Idle [])
    = (Returned (Some conn, None), w') /\
    grpc.insecure (grpc.dopts conn) = true /\
    grpc.backoffMaxDelay (grpc.dopts conn) = Some time.Second /\
    grpc.unaryInt (grpc.dopts conn) = Some grpc.interceptor_logGRPC /\
    forall ctx method req reply opts w0,
      ClientConn_Invoke conn ctx method req reply opts w0
      = logGRPC ctx method req reply conn grpc.invoke opts w0.
Proof.
  exact (connect_channel_options "127.0.0.1:10000" time.Second
           (sample_world (failing_driver Unavailable) connectivity.Idle []) eq_refl).
Defined.

(** ** New *)

Lemma New_run address timeout w :
  dial_err w = None ->
  exists w',
    New address timeout w
    = (Returned (Some (mkCsiConnection (channel_of address)), None), w') /\
    remote w' = remote w /\ wire w' = wire w.
Proof.
  intros Hdial. unfold New. rewrite bind_run.
  destruct (connect_run address timeout w Hdial) as (w' & -> & Hremote & Hwire & _).
  cbn [deref]. rewrite bind_run, ret_run. cbv beta iota. rewrite ret_run.
  by exists w'.
Qed.

(** X19. [New] fails only when the dial is refused, and then with the dial
    error and no connection.  Otherwise it returns a connection on the
    channel to the given address and no error, whatever state the channel
    ends in, ready or not.  In neither case is the driver called. *)
Theorem New_fails_only_on_dial address timeout w :
  exists w',
    New address timeout w
    = (Returned match dial_err w with
                | Some e => (None, Some e)
                | None => (Some (mkCsiConnection (channel_of address)), None)
                end, w') /\
    issued w w' = [].
Proof.
  destruct (dial_err w) as [e|] eqn:Hdial.
  - unfold New. rewrite bind_run.
    unfold connect. rewrite bind_run.
    destruct (glog_V_Infof_run 2 "Connecting to %s" [arg_string address] w) as [l ->].
    rewrite bind_run. unfold grpc.Dial. rewrite bind_run. unfold gets at 1.
    cbn [dial_err set_glog_out]. rewrite Hdial, ret_run. cbv beta iota.
    rewrite ret_run. cbv beta iota. rewrite ret_run.
    eexists. split; [reflexivity|]. apply issued_app. cbn. by rewrite app_nil_r.
  - destruct (New_run address timeout w Hdial) as (w' & -> & _ & Hwire).
    exists w'. split; [done|]. apply issued_app. by rewrite app_nil_r.
Qed.

(** X20. Failure is deferred to the first operation.  After a [New] whose
    dial succeeded, the first [GetDriverName] on the new connection is
    answered by the driver as it was before [New]: when the plugin-info call
    fails, as on a channel that never became ready, [GetDriverName] returns
    that error; when it succeeds with a non-empty name, that name. *)
Theorem first_operation_after_New address timeout ctx w info err :
  dial_err w = None ->
  drv_GetPluginInfo (remote w) ctx (wire w) csi.mkGetPluginInfoRequest = (info, err) ->
  exists c w1,
    New address timeout w = (Returned (Some c, None), w1) /\
    (GetDriverName c ctx w1).1
    = Returned match err with
               | Some e => ("", Some e)
               | None =>
                   if String.eqb (csi.PluginInfo_Name info) ""
                   then ("", Some (fmt_Errorf "name is empty" []))
                   else (csi.PluginInfo_Name info, None)
               end.
Proof.
  intros Hdial Hdrv.
  destruct (New_run address timeout w Hdial) as (w1 & Hnew & Hremote & Hwire).
  exists (mkCsiConnection (channel_of address)), w1. split; [exact Hnew|].
  destruct (GetDriverName_run (mkCsiConnection (channel_of address)) ctx w1)
    as (l & r & -> & Hr).
  rewrite Hremote, Hwire, Hdrv in Hr. cbn [fst].
  destruct err as [e|]; [by subst r|].
  destruct (String.eqb _ _); by subst r.
Qed.

Lemma first_operation_after_New_witness :
  exists c w1,
    New sample_address time.Second
      (sample_world (failing_driver Unavailable) connectivity.Idle
         [(5, connectivity.Connecting); (7, connectivity.TransientFailure)])
    = (Returned (Some c, None), w1) /\
    (GetDriverName c sample_ctx w1).1 = Returned ("", Some Unavailable).
Proof.
  exact (first_operation_after_New sample_address time.Second sample_ctx
           (sample_world (failing_driver Unavailable) connectivity.Idle
              [(5, connectivity.Connecting); (7, connectivity.TransientFailure)])
           csi.new_GetPluginInfoResponse (Some Unavailable) eq_refl eq_refl).
Defined.

(** ** What GetSnapshotStatus does not look at *)

(** X21. [GetSnapshotStatus] does not compare the snapshot it is handed
    with the id it asked for.  Two list responses whose first entries carry
    snapshots with the same ready flag, creation time and size give the same
    outcome, whatever snapshot id and source volume id those snapshots
    carry. *)
Theorem GetSnapshotStatus_ignores_ids c ctx snapshotID w1 w2 rsp1 rsp2
    snap1 snap2 rest1 rest2 :
  drv_ListSnapshots (remote w1) ctx (wire w1) (list_request snapshotID) = (rsp1, None) ->
  drv_ListSnapshots (remote w2) ctx (wire w2) (list_request snapshotID) = (rsp2, None) ->
  csi.Entries rsp1 = Some (csi.mkListSnapshotsResponse_Entry (Some snap1)) :: rest1 ->
  csi.Entries rsp2 = Some (csi.mkListSnapshotsResponse_Entry (Some snap2)) :: rest2 ->
  csi.Snapshot_ReadyToUse snap1 = csi.Snapshot_ReadyToUse snap2 ->
  csi.Snapshot_CreationTime snap1 = csi.Snapshot_CreationTime snap2 ->
  csi.Snapshot_SizeBytes snap1 = csi.Snapshot_SizeBytes snap2 ->
  (GetSnapshotStatus c ctx snapshotID w1).1 = (GetSnapshotStatus c ctx snapshotID w2).1.
Proof.
  intros H1 H2 E1 E2 Hready Htime Hsize.
  destruct (GetSnapshotStatus_run c ctx snapshotID w1) as (o1 & l1 & -> & Ho1).
  destruct (GetSnapshotStatus_run c ctx snapshotID w2) as (o2 & l2 & -> & Ho2).
  rewrite H1, E1 in Ho1. rewrite H2, E2 in Ho2.
  cbn [csi.Entry_Snapshot fst] in *. rewrite Htime in Ho1.
  destruct (timestampToUnixTime _) as [t [e|]]; congruence.
Qed.

Lemma GetSnapshotStatus_ignores_ids_witness :
  (GetSnapshotStatus sample_conn sample_ctx "snap-xyz"
     (sample_world
        (sample_driver "csi.example.com" None
           [Some (csi.mkListSnapshotsResponse_Entry (Some (sample_snapshot "snap-xyz")))])
        connectivity.Ready [])).1
  = (GetSnapshotStatus sample_conn sample_ctx "snap-xyz"
       (sample_world
          (sample_driver "csi.example.com" None
             [Some (csi.mkListSnapshotsResponse_Entry (Some (sample_snapshot "another")))])
          connectivity.Ready [])).1.
Proof.
  exact (GetSnapshotStatus_ignores_ids sample_conn sample_ctx "snap-xyz"
           (sample_world
              (sample_driver "csi.example.com" None
                 [Some (csi.mkListSnapshotsResponse_Entry (Some (sample_snapshot "snap-xyz")))])
              connectivity.Ready [])
           (sample_world
              (sample_driver "csi.example.com" None
                 [Some (csi.mkListSnapshotsResponse_Entry (Some (sample_snapshot "another")))])
              connectivity.Ready [])
           (csi.mkListSnapshotsResponse
              [Some (csi.mkListSnapshotsResponse_Entry (Some (sample_snapshot "snap-xyz")))] "")
           (csi.mkListSnapshotsResponse
              [Some (csi.mkListSnapshotsResponse_Entry (Some (sample_snapshot "another")))] "")
           (sample_snapshot "snap-xyz") (sample_snapshot "another") [] []
           eq_refl eq_refl eq_refl eq_refl eq_refl eq_refl eq_refl).
Defined.
